(** * The beaconv1 pool endpoints of the beacon-chain RPC server

    A shallow embedding of [beacon-chain/rpc/beaconv1/pool.go]: the six
    implemented handlers [ListPoolAttesterSlashings], [SubmitAttesterSlashing],
    [ListPoolProposerSlashings], [SubmitProposerSlashing],
    [ListPoolVoluntaryExits] and [SubmitVoluntaryExit].

    The handlers only orchestrate collaborators that live in other packages
    (the chain-info fetcher, the block verification functions, the slashing
    and exit pools, the p2p broadcaster, the migration functions and the
    feature configuration).  Those are interfaces here, exactly as they are
    interface-typed fields of the Go [Server]; the handlers are written in a
    small monad that threads the collaborators' states, stops at the first
    [return nil, status.Errorf(...)] and records every collaborator call.

    Not modelled: the [context.Context] argument and the tracing span
    ([trace.StartSpan] / [span.End]), which do not influence control flow;
    nil requests (a request is a well-formed message). *)

From stdpp Require Import base list strings.

(** ** Values crossing the RPC boundary *)

(** A Go [error], identified with the text that [%v] prints for it. *)
Definition error : Type := string.

(** [codes.Code] of google.golang.org/grpc; the handlers only use
    [codes.Internal]. *)
Inductive Code : Set :=
| OK
| InvalidArgument
| NotFound
| Internal
| Unavailable.

(** The error built by [status.Errorf]. *)
Record Status : Set := mkStatus { code : Code; message : string }.

(** [status.Errorf(c, prefix + "%v", err)]. *)
Definition Errorf (c : Code) (prefix : string) (err : error) : Status :=
  {| code := c; message := prefix +:+ err |}.

(** [ptypes.Empty]. *)
Inductive ptypes_Empty : Set := EmptyMsg.

(** The three [...PoolResponse] messages: each has the single field [Data]. *)
Record PoolResponse (T : Type) : Type := mkPoolResponse { Data : list T }.
Arguments mkPoolResponse {T} _.
Arguments Data {T} _.

(** [featureconfig.Flags], restricted to the flag that pool.go reads. *)
Record Flags : Set := { DisableBroadcastSlashings : bool }.

(** A Go pointer type has the zero value [nil]; [make([]*T, n)] fills a
    slice with it. *)
Class Pointer (T : Type) : Type := nil_ptr : T.

(** ** The collaborators, as interfaces *)

(** The accessors of [*state.BeaconState] that pool.go uses.  Slots and
    validator indices are [uint64]; no arithmetic is done on them. *)
Class BeaconStateReader (BeaconState ReadOnlyValidator Fork Root : Type) := {
  Slot : BeaconState -> Z;
  StateFork : BeaconState -> Fork;
  GenesisValidatorRoot : BeaconState -> Root;
  ValidatorAtIndexReadOnly : BeaconState -> Z -> error + ReadOnlyValidator
}.

(** [blockchain.ChainInfoFetcher], restricted to [HeadState].  [Chain] is
    the state of the object behind the interface. *)
Class ChainInfoFetcher (Chain BeaconState : Type) := {
  HeadState : Chain -> (error + BeaconState) * Chain
}.

(** [slashings.PoolManager]. *)
Class SlashingsPoolManager (Pool BeaconState AttSlashing PropSlashing : Type) := {
  InsertAttesterSlashing :
    BeaconState -> AttSlashing -> Pool -> option error * Pool;
  InsertProposerSlashing :
    BeaconState -> PropSlashing -> Pool -> option error * Pool;
  PendingAttesterSlashings :
    BeaconState -> bool -> Pool -> list AttSlashing * Pool;
  PendingProposerSlashings :
    BeaconState -> bool -> Pool -> list PropSlashing * Pool
}.

(** [voluntaryexits.PoolManager].  [InsertVoluntaryExit] has no result. *)
Class ExitPoolManager (Pool BeaconState SignedExit : Type) := {
  InsertVoluntaryExit : BeaconState -> SignedExit -> Pool -> Pool;
  PendingExits : BeaconState -> Z -> bool -> Pool -> list SignedExit * Pool
}.

(** [p2p.Broadcaster]. *)
Class Broadcaster (Network Message : Type) := {
  Broadcast : Message -> Network -> option error * Network
}.

(** The verification functions of package [blocks]. *)
Class Verifier (BeaconState ReadOnlyValidator Fork Root
                AttSlashing PropSlashing SignedExit : Type) := {
  VerifyAttesterSlashing : BeaconState -> AttSlashing -> option error;
  VerifyProposerSlashing : BeaconState -> PropSlashing -> option error;
  VerifyExitAndSignature :
    ReadOnlyValidator -> Z -> Fork -> SignedExit -> Root -> option error
}.

(** Package [migration]: translations between the v1 wire messages and the
    v1alpha1 messages used by the verifier and the pools. *)
Class Migration (V1Att V1Prop V1Exit AlphaAtt AlphaProp AlphaExit : Type) := {
  V1AttSlashingToV1Alpha1 : V1Att -> AlphaAtt;
  V1Alpha1AttSlashingToV1 : AlphaAtt -> V1Att;
  V1ProposerSlashingToV1Alpha1 : V1Prop -> AlphaProp;
  V1Alpha1ProposerSlashingToV1 : AlphaProp -> V1Prop;
  V1ExitToV1Alpha1 : V1Exit -> AlphaExit;
  V1Alpha1ExitToV1 : AlphaExit -> V1Exit
}.

(** The field path [req.Exit.ValidatorIndex] of a v1 [SignedVoluntaryExit]. *)
Class ExitRequest (V1Exit : Type) := {
  Exit_ValidatorIndex : V1Exit -> Z
}.

(** ** The slice-filling loop of the List handlers *)

(** [for i, s := range src { dst[i] = f(s) }], started at index [i]. *)
Fixpoint range_assign {A B : Type} (f : A -> B) (i : nat)
    (src : list A) (dst : list B) : list B :=
  match src with
  | [] => dst
  | s :: rest => range_assign f (S i) rest (<[i := f s]> dst)
  end.

(** [dst := make([]*B, len(src))] followed by the loop. *)
Definition translate_all {A B : Type} `{!Pointer B}
    (f : A -> B) (src : list A) : list B :=
  range_assign f 0 src (replicate (length src) nil_ptr).

(** What [Broadcaster.Broadcast] is given: one of the three v1 messages
    (a [proto.Message] in Go). *)
Inductive Message (V1Att V1Prop V1Exit : Type) : Type :=
| MsgAttesterSlashing (req : V1Att)
| MsgProposerSlashing (req : V1Prop)
| MsgVoluntaryExit (req : V1Exit).
Arguments MsgAttesterSlashing {V1Att V1Prop V1Exit} _.
Arguments MsgProposerSlashing {V1Att V1Prop V1Exit} _.
Arguments MsgVoluntaryExit {V1Att V1Prop V1Exit} _.

(** What package beaconv1 imports: the types owned by other packages, the
    states of the objects behind the interface-typed fields of [Server]
    ([ChainInfoFetcher], [SlashingsPool], [VoluntaryExitsPool],
    [Broadcaster]) and the operations on them. *)
Class Env : Type := {
  BeaconState : Type;
  ReadOnlyValidator : Type;
  Fork : Type;
  Root : Type;
  V1Att : Type;
  V1Prop : Type;
  V1Exit : Type;
  AlphaAtt : Type;
  AlphaProp : Type;
  AlphaExit : Type;
  Chain : Type;
  SlashingsPool : Type;
  ExitsPool : Type;
  Network : Type;
  env_state :: BeaconStateReader BeaconState ReadOnlyValidator Fork Root;
  env_chain :: ChainInfoFetcher Chain BeaconState;
  env_slashings :: SlashingsPoolManager SlashingsPool BeaconState AlphaAtt AlphaProp;
  env_exits :: ExitPoolManager ExitsPool BeaconState AlphaExit;
  env_p2p :: Broadcaster Network (Message V1Att V1Prop V1Exit);
  env_blocks :: Verifier BeaconState ReadOnlyValidator Fork Root
                  AlphaAtt AlphaProp AlphaExit;
  env_migration :: Migration V1Att V1Prop V1Exit AlphaAtt AlphaProp AlphaExit;
  env_request :: ExitRequest V1Exit;
  env_nil_att :: Pointer V1Att;
  env_nil_prop :: Pointer V1Prop;
  env_nil_exit :: Pointer V1Exit
}.

(** ** The server *)

Section Server.

Context {E : Env}.

#[local] Abbreviation WireMessage := (Message V1Att V1Prop V1Exit).

(** Everything a handler can touch: the four collaborators reached through
    [bs] and the process-wide feature configuration. *)
Record World : Type := mkWorld {
  chainInfo : Chain;
  slashingsPool : SlashingsPool;
  exitsPool : ExitsPool;
  p2p : Network;
  featureconfig : Flags
}.

Definition set_chainInfo (c : Chain) (w : World) : World :=
  mkWorld c (slashingsPool w) (exitsPool w) (p2p w) (featureconfig w).
Definition set_slashingsPool (p : SlashingsPool) (w : World) : World :=
  mkWorld (chainInfo w) p (exitsPool w) (p2p w) (featureconfig w).
Definition set_exitsPool (p : ExitsPool) (w : World) : World :=
  mkWorld (chainInfo w) (slashingsPool w) p (p2p w) (featureconfig w).
Definition set_p2p (n : Network) (w : World) : World :=
  mkWorld (chainInfo w) (slashingsPool w) (exitsPool w) n (featureconfig w).

Definition set_featureconfig (f : Flags) (w : World) : World :=
  mkWorld (chainInfo w) (slashingsPool w) (exitsPool w) (p2p w) f.

(** The pools, respectively the network, are in the same state in [w']
    as in [w]. *)
Definition pools_untouched (w w' : World) : Prop :=
  slashingsPool w' = slashingsPool w /\ exitsPool w' = exitsPool w.

Definition network_untouched (w w' : World) : Prop :=
  p2p w' = p2p w.

(** One entry per call that leaves the handler, with its arguments. *)
Inductive Call : Type :=
| CallHeadState
| CallVerifyAttesterSlashing (st : BeaconState) (s : AlphaAtt)
| CallVerifyProposerSlashing (st : BeaconState) (s : AlphaProp)
| CallVerifyExitAndSignature
    (v : ReadOnlyValidator) (slot : Z) (fork : Fork) (e : AlphaExit) (root : Root)
| CallInsertAttesterSlashing (st : BeaconState) (s : AlphaAtt)
| CallInsertProposerSlashing (st : BeaconState) (s : AlphaProp)
| CallInsertVoluntaryExit (st : BeaconState) (e : AlphaExit)
| CallPendingAttesterSlashings (st : BeaconState) (noLimit : bool)
| CallPendingProposerSlashings (st : BeaconState) (noLimit : bool)
| CallPendingExits (st : BeaconState) (slot : Z) (noLimit : bool)
| CallBroadcast (msg : WireMessage).

Definition is_head_state (c : Call) : bool :=
  match c with CallHeadState => true | _ => false end.

Definition is_verify (c : Call) : bool :=
  match c with
  | CallVerifyAttesterSlashing _ _ | CallVerifyProposerSlashing _ _
  | CallVerifyExitAndSignature _ _ _ _ _ => true
  | _ => false
  end.

Definition is_insert (c : Call) : bool :=
  match c with
  | CallInsertAttesterSlashing _ _ | CallInsertProposerSlashing _ _
  | CallInsertVoluntaryExit _ _ => true
  | _ => false
  end.

Definition is_pending (c : Call) : bool :=
  match c with
  | CallPendingAttesterSlashings _ _ | CallPendingProposerSlashings _ _
  | CallPendingExits _ _ _ => true
  | _ => false
  end.

Definition is_broadcast (c : Call) : bool :=
  match c with CallBroadcast _ => true | _ => false end.

(** How often a kind of call occurs in a trace. *)
Fixpoint count (p : Call -> bool) (t : list Call) : nat :=
  match t with
  | [] => 0
  | c :: t' => (if p c then 1 else 0) + count p t'
  end.


(** The state argument of a verification or insertion call is the snapshot
    [st]; for [VerifyExitAndSignature], which takes no state, the validator
    record, slot, fork and genesis root are the ones read from [st]. *)
Definition from_snapshot (st : BeaconState) (c : Call) : Prop :=
  match c with
  | CallVerifyAttesterSlashing st' _ | CallVerifyProposerSlashing st' _
  | CallInsertAttesterSlashing st' _ | CallInsertProposerSlashing st' _
  | CallInsertVoluntaryExit st' _ => st' = st
  | CallVerifyExitAndSignature v slot fork _ root =>
      (exists idx, ValidatorAtIndexReadOnly st idx = inr v) /\
      slot = Slot st /\ fork = StateFork st /\ root = GenesisValidatorRoot st
  | _ => True
  end.

(** What a Submit of the v1 request [req] hands to the pool and to the
    broadcaster, per kind. *)
Definition carries_attester_slashing (req : V1Att) (c : Call) : Prop :=
  match c with
  | CallVerifyAttesterSlashing _ s | CallInsertAttesterSlashing _ s =>
      s = V1AttSlashingToV1Alpha1 req
  | CallBroadcast msg => msg = MsgAttesterSlashing req
  | CallHeadState => True
  | _ => False
  end.

Definition carries_proposer_slashing (req : V1Prop) (c : Call) : Prop :=
  match c with
  | CallVerifyProposerSlashing _ s | CallInsertProposerSlashing _ s =>
      s = V1ProposerSlashingToV1Alpha1 req
  | CallBroadcast msg => msg = MsgProposerSlashing req
  | CallHeadState => True
  | _ => False
  end.

Definition carries_voluntary_exit (req : V1Exit) (c : Call) : Prop :=
  match c with
  | CallVerifyExitAndSignature _ _ _ e _ | CallInsertVoluntaryExit _ e =>
      e = V1ExitToV1Alpha1 req
  | CallBroadcast msg => msg = MsgVoluntaryExit req
  | CallHeadState => True
  | _ => False
  end.

(** The trace without its broadcast calls. *)
Fixpoint drop_broadcasts (t : list Call) : list Call :=
  match t with
  | [] => []
  | c :: t' =>
      if is_broadcast c then drop_broadcasts t' else c :: drop_broadcasts t'
  end.

(** *** The handler monad *)

(** What a run leaves behind: the Go result pair [(value, error)], the
    collaborators' states and the calls made, oldest first. *)
Record Outcome (A : Type) : Type := mkOutcome {
  result : Status + A;
  world : World;
  trace : list Call
}.
Arguments mkOutcome {A} _ _ _.
Arguments result {A} _.
Arguments world {A} _.
Arguments trace {A} _.

Definition Handler (A : Type) : Type := World -> Outcome A.

(** The outcome [o] with its world changed by [f]. *)
Definition with_world {A : Type} (f : World -> World) (o : Outcome A) : Outcome A :=
  mkOutcome (result o) (f (world o)) (trace o).

(** [return v, nil] *)
Definition ret {A : Type} (v : A) : Handler A :=
  fun w => mkOutcome (inr v) w [].

(** [return nil, st] *)
Definition throw {A : Type} (st : Status) : Handler A :=
  fun w => mkOutcome (inl st) w [].

(** Sequencing; a [throw] ends the handler. *)
Definition bind {A B : Type} (m : Handler A) (k : A -> Handler B) : Handler B :=
  fun w =>
    match m w with
    | mkOutcome (inl st) w1 t1 => mkOutcome (inl st) w1 t1
    | mkOutcome (inr a) w1 t1 =>
        match k a w1 with
        | mkOutcome r w2 t2 => mkOutcome r w2 (t1 ++ t2)
        end
    end.

#[local] Instance Handler_ret : MRet Handler := @ret.
#[local] Instance Handler_bind : MBind Handler := fun A B k m => bind m k.

(** *** Calls to the collaborators *)

Definition call_HeadState : Handler (error + BeaconState) :=
  fun w =>
    let '(r, c) := HeadState (chainInfo w) in
    mkOutcome (inr r) (set_chainInfo c w) [CallHeadState].

Definition call_VerifyAttesterSlashing (st : BeaconState) (s : AlphaAtt)
    : Handler (option error) :=
  fun w => mkOutcome (inr (VerifyAttesterSlashing st s)) w
             [CallVerifyAttesterSlashing st s].

Definition call_VerifyProposerSlashing (st : BeaconState) (s : AlphaProp)
    : Handler (option error) :=
  fun w => mkOutcome (inr (VerifyProposerSlashing st s)) w
             [CallVerifyProposerSlashing st s].

Definition call_VerifyExitAndSignature (v : ReadOnlyValidator) (slot : Z)
    (fork : Fork) (e : AlphaExit) (root : Root) : Handler (option error) :=
  fun w => mkOutcome (inr (VerifyExitAndSignature v slot fork e root)) w
             [CallVerifyExitAndSignature v slot fork e root].

Definition call_InsertAttesterSlashing (st : BeaconState) (s : AlphaAtt)
    : Handler (option error) :=
  fun w =>
    let '(r, p) := InsertAttesterSlashing st s (slashingsPool w) in
    mkOutcome (inr r) (set_slashingsPool p w) [CallInsertAttesterSlashing st s].

Definition call_InsertProposerSlashing (st : BeaconState) (s : AlphaProp)
    : Handler (option error) :=
  fun w =>
    let '(r, p) := InsertProposerSlashing st s (slashingsPool w) in
    mkOutcome (inr r) (set_slashingsPool p w) [CallInsertProposerSlashing st s].

Definition call_InsertVoluntaryExit (st : BeaconState) (e : AlphaExit)
    : Handler unit :=
  fun w =>
    mkOutcome (inr tt)
      (set_exitsPool (InsertVoluntaryExit st e (exitsPool w)) w)
      [CallInsertVoluntaryExit st e].

Definition call_PendingAttesterSlashings (st : BeaconState) (noLimit : bool)
    : Handler (list AlphaAtt) :=
  fun w =>
    let '(l, p) := PendingAttesterSlashings st noLimit (slashingsPool w) in
    mkOutcome (inr l) (set_slashingsPool p w)
      [CallPendingAttesterSlashings st noLimit].

Definition call_PendingProposerSlashings (st : BeaconState) (noLimit : bool)
    : Handler (list AlphaProp) :=
  fun w =>
    let '(l, p) := PendingProposerSlashings st noLimit (slashingsPool w) in
    mkOutcome (inr l) (set_slashingsPool p w)
      [CallPendingProposerSlashings st noLimit].

Definition call_PendingExits (st : BeaconState) (slot : Z) (noLimit : bool)
    : Handler (list AlphaExit) :=
  fun w =>
    let '(l, p) := PendingExits st slot noLimit (exitsPool w) in
    mkOutcome (inr l) (set_exitsPool p w) [CallPendingExits st slot noLimit].

Definition call_Broadcast (msg : WireMessage) : Handler (option error) :=
  fun w =>
    let '(r, n) := Broadcast msg (p2p w) in
    mkOutcome (inr r) (set_p2p n w) [CallBroadcast msg].

(** [featureconfig.Get()]: a read of process-wide configuration. *)
Definition featureconfig_Get : Handler Flags :=
  fun w => mkOutcome (inr (featureconfig w)) w [].


(** *** The handlers of pool.go *)

(** [ListPoolAttesterSlashings] *)
Definition ListPoolAttesterSlashings : Handler (PoolResponse V1Att) :=
  r ← call_HeadState;
  match r with
  | inl err => throw (Errorf Internal "Could not get head state: " err)
  | inr headState =>
      sourceSlashings ← call_PendingAttesterSlashings headState true;
      let slashings := translate_all V1Alpha1AttSlashingToV1 sourceSlashings in
      mret {| Data := slashings |}
  end.

(** [SubmitAttesterSlashing] *)
Definition SubmitAttesterSlashing (req : V1Att) : Handler ptypes_Empty :=
  r ← call_HeadState;
  match r with
  | inl err => throw (Errorf Internal "Could not get head state: " err)
  | inr headState =>
      let alphaSlashing := V1AttSlashingToV1Alpha1 req in
      err ← call_VerifyAttesterSlashing headState alphaSlashing;
      match err with
      | Some err => throw (Errorf Internal "Invalid attester slashing: " err)
      | None =>
          err ← call_InsertAttesterSlashing headState alphaSlashing;
          match err with
          | Some err =>
              throw (Errorf Internal
                       "Could not insert attester slashing into pool: " err)
          | None =>
              cfg ← featureconfig_Get;
              if negb (DisableBroadcastSlashings cfg) then
                err ← call_Broadcast (MsgAttesterSlashing req);
                match err with
                | Some err =>
                    throw (Errorf Internal
                             "Could not broadcast slashing object: " err)
                | None => mret EmptyMsg
                end
              else mret EmptyMsg
          end
      end
  end.

(** [ListPoolProposerSlashings] *)
Definition ListPoolProposerSlashings : Handler (PoolResponse V1Prop) :=
  r ← call_HeadState;
  match r with
  | inl err => throw (Errorf Internal "Could not get head state: " err)
  | inr headState =>
      sourceSlashings ← call_PendingProposerSlashings headState true;
      let slashings :=
        translate_all V1Alpha1ProposerSlashingToV1 sourceSlashings in
      mret {| Data := slashings |}
  end.

(** [SubmitProposerSlashing] *)
Definition SubmitProposerSlashing (req : V1Prop) : Handler ptypes_Empty :=
  r ← call_HeadState;
  match r with
  | inl err => throw (Errorf Internal "Could not get head state: " err)
  | inr headState =>
      let alphaSlashing := V1ProposerSlashingToV1Alpha1 req in
      err ← call_VerifyProposerSlashing headState alphaSlashing;
      match err with
      | Some err => throw (Errorf Internal "Invalid proposer slashing: " err)
      | None =>
          err ← call_InsertProposerSlashing headState alphaSlashing;
          match err with
          | Some err =>
              throw (Errorf Internal
                       "Could not insert proposer slashing into pool: " err)
          | None =>
              cfg ← featureconfig_Get;
              if negb (DisableBroadcastSlashings cfg) then
                err ← call_Broadcast (MsgProposerSlashing req);
                match err with
                | Some err =>
                    throw (Errorf Internal
                             "Could not broadcast slashing object: " err)
                | None => mret EmptyMsg
                end
              else mret EmptyMsg
          end
      end
  end.

(** [ListPoolVoluntaryExits] *)
Definition ListPoolVoluntaryExits : Handler (PoolResponse V1Exit) :=
  r ← call_HeadState;
  match r with
  | inl err => throw (Errorf Internal "Could not get head state: " err)
  | inr headState =>
      sourceExits ← call_PendingExits headState (Slot headState) true;
      let exits := translate_all V1Alpha1ExitToV1 sourceExits in
      mret {| Data := exits |}
  end.

(** [SubmitVoluntaryExit] *)
Definition SubmitVoluntaryExit (req : V1Exit) : Handler ptypes_Empty :=
  r ← call_HeadState;
  match r with
  | inl err => throw (Errorf Internal "Could not get head state: " err)
  | inr headState =>
      match ValidatorAtIndexReadOnly headState (Exit_ValidatorIndex req) with
      | inl err => throw (Errorf Internal "Could not get exiting validator: " err)
      | inr validator =>
          let alphaExit := V1ExitToV1Alpha1 req in
          err ← call_VerifyExitAndSignature validator (Slot headState)
                  (StateFork headState) alphaExit (GenesisValidatorRoot headState);
          match err with
          | Some err => throw (Errorf Internal "Invalid voluntary exit: " err)
          | None =>
              call_InsertVoluntaryExit headState alphaExit;;
              err ← call_Broadcast (MsgVoluntaryExit req);
              match err with
              | Some err =>
                  throw (Errorf Internal
                           "Could not broadcast voluntary exit object: " err)
              | None => mret EmptyMsg
              end
          end
      end
  end.


(** *** The two endpoints that are not implemented *)

(** [ListPoolAttestations]: [return nil, errors.New("unimplemented")].  The
    error is a plain Go error, not a status; the node is not consulted. *)
Definition ListPoolAttestations {Req Resp : Type} (req : Req)
    : World -> (error + Resp) * World * list Call :=
  fun w => (inl "unimplemented", w, []).

(** [SubmitAttestation]: [return nil, errors.New("unimplemented")]. *)
Definition SubmitAttestation {Att : Type} (req : Att)
    : World -> (error + ptypes_Empty) * World * list Call :=
  fun w => (inl "unimplemented", w, []).

End Server.

Arguments mkOutcome {E A} _ _ _.
Arguments result {E A} _.
Arguments world {E A} _.
Arguments trace {E A} _.
Arguments Errorf : simpl never.

(** ** A small instance of the collaborators

    A node with list-backed pools, used to run the handlers on concrete
    requests. *)

Module Demo.

(** A v1 message: the nil pointer or a message identified by a number (for
    a voluntary exit, the validator index). *)
Inductive wire : Set :=
| WireNil
| WireMsg (id : Z).

(** A v1alpha1 message. *)
Inductive alpha : Set :=
| AlphaNil
| AlphaMsg (id : Z).

Definition to_alpha (m : wire) : alpha :=
  match m with WireNil => AlphaNil | WireMsg i => AlphaMsg i end.

Definition to_wire (m : alpha) : wire :=
  match m with AlphaNil => WireNil | AlphaMsg i => WireMsg i end.

Definition wire_index (m : wire) : Z :=
  match m with WireNil => 0 | WireMsg i => i end.

(** A head state: its slot and, per validator, whether it is still active. *)
Record state : Set := mkState { state_slot : Z; registry : list bool }.

Definition validator_at (st : state) (idx : Z) : error + bool :=
  if (idx <? 0)%Z then inl "index out of range"
  else match registry st !! Z.to_nat idx with
       | Some v => inr v
       | None => inl "index out of range"
       end.

(** The chain-info fetcher: the current head, if there is one. *)
Definition chain : Set := option state.

Definition head_state (c : chain) : (error + state) * chain :=
  match c with
  | Some st => (inr st, c)
  | None => (inl "head state is nil", c)
  end.

Definition alpha_eqb (a b : alpha) : bool :=
  match a, b with
  | AlphaNil, AlphaNil => true
  | AlphaMsg i, AlphaMsg j => (i =? j)%Z
  | _, _ => false
  end.

Definition member (a : alpha) (l : list alpha) : bool :=
  existsb (alpha_eqb a) l.

(** The slashing pool: pending attester and proposer slashings, oldest
    first.  An object already pending is refused. *)
Record slashing_pool : Set := mkSlashingPool {
  pending_attester : list alpha;
  pending_proposer : list alpha
}.

Definition insert_attester (st : state) (s : alpha) (p : slashing_pool)
    : option error * slashing_pool :=
  if member s (pending_attester p) then (Some "slashing already pending", p)
  else (None, mkSlashingPool (pending_attester p ++ [s]) (pending_proposer p)).

Definition insert_proposer (st : state) (s : alpha) (p : slashing_pool)
    : option error * slashing_pool :=
  if member s (pending_proposer p) then (Some "slashing already pending", p)
  else (None, mkSlashingPool (pending_attester p) (pending_proposer p ++ [s])).

(** Pending objects; at most two unless [noLimit]. *)
Definition limited {A : Type} (noLimit : bool) (l : list A) : list A :=
  if noLimit then l else take 2 l.

(** The exit pool: an exit already pending is dropped silently. *)
Definition insert_exit (st : state) (e : alpha) (p : list alpha) : list alpha :=
  if member e p then p else p ++ [e].

(** The network: whether peers are reachable, and what was published. *)
Record network : Set := mkNetwork {
  connected : bool;
  published : list (Message wire wire wire)
}.

Definition broadcast (m : Message wire wire wire) (n : network)
    : option error * network :=
  if connected n then (None, mkNetwork true (published n ++ [m]))
  else (Some "no peers", n).

(** A slashing names a non-negative offender; an exit needs an active
    validator. *)
Definition verify_slashing (st : state) (s : alpha) : option error :=
  match s with
  | AlphaNil => Some "nil slashing"
  | AlphaMsg i => if (i <? 0)%Z then Some "slashing conditions not met" else None
  end.

Definition verify_exit (v : bool) (slot : Z) (fork : unit) (e : alpha)
    (root : unit) : option error :=
  if v then None else Some "validator already exited".

#[export] Instance demo_env : Env := {|
  BeaconState := state;
  ReadOnlyValidator := bool;
  Fork := unit;
  Root := unit;
  V1Att := wire;
  V1Prop := wire;
  V1Exit := wire;
  AlphaAtt := alpha;
  AlphaProp := alpha;
  AlphaExit := alpha;
  Chain := chain;
  SlashingsPool := slashing_pool;
  ExitsPool := list alpha;
  Network := network;
  env_state := {|
    Slot := state_slot;
    StateFork := fun _ => tt;
    GenesisValidatorRoot := fun _ => tt;
    ValidatorAtIndexReadOnly := validator_at
  |};
  env_chain := {| HeadState := head_state |};
  env_slashings := {|
    InsertAttesterSlashing := insert_attester;
    InsertProposerSlashing := insert_proposer;
    PendingAttesterSlashings :=
      fun _ noLimit p => (limited noLimit (pending_attester p), p);
    PendingProposerSlashings :=
      fun _ noLimit p => (limited noLimit (pending_proposer p), p)
  |};
  env_exits := {|
    InsertVoluntaryExit := insert_exit;
    PendingExits := fun _ _ noLimit p => (limited noLimit p, p)
  |};
  env_p2p := {| Broadcast := broadcast |};
  env_blocks := {|
    VerifyAttesterSlashing := verify_slashing;
    VerifyProposerSlashing := verify_slashing;
    VerifyExitAndSignature := verify_exit
  |};
  env_migration := {|
    V1AttSlashingToV1Alpha1 := to_alpha;
    V1Alpha1AttSlashingToV1 := to_wire;
    V1ProposerSlashingToV1Alpha1 := to_alpha;
    V1Alpha1ProposerSlashingToV1 := to_wire;
    V1ExitToV1Alpha1 := to_alpha;
    V1Alpha1ExitToV1 := to_wire
  |};
  env_request := {| Exit_ValidatorIndex := wire_index |};
  env_nil_att := WireNil;
  env_nil_prop := WireNil;
  env_nil_exit := WireNil
|}.

(** Slot 64, validators 0 and 1 active, validator 2 exited. *)
Definition head : state := mkState 64 [true; true; false].

(** A node with a head, empty pools, and peers. *)
Definition node : World :=
  mkWorld (Some head) (mkSlashingPool [] []) [] (mkNetwork true [])
    {| DisableBroadcastSlashings := false |}.

(** The same node before it has a head. *)
Definition node_without_head : World :=
  mkWorld None (mkSlashingPool [] []) [] (mkNetwork true [])
    {| DisableBroadcastSlashings := false |}.

(** The same node with no reachable peer. *)
Definition node_offline : World :=
  mkWorld (Some head) (mkSlashingPool [] []) [] (mkNetwork false [])
    {| DisableBroadcastSlashings := false |}.

(** The same node with the broadcast of slashings disabled. *)
Definition node_quiet : World :=
  mkWorld (Some head) (mkSlashingPool [] []) [] (mkNetwork true [])
    {| DisableBroadcastSlashings := true |}.

(** A node whose pools already hold object 1 of each kind. *)
Definition node_holding : World :=
  mkWorld (Some head) (mkSlashingPool [AlphaMsg 1] [AlphaMsg 1]) [AlphaMsg 1]
    (mkNetwork true []) {| DisableBroadcastSlashings := false |}.

End Demo.

(** ** An instance whose pool filters its pending objects

    The node of [Demo], except that the pending queries of the slashing
    pool report only the slashings whose offender is still active in the
    head state they are given. *)

Module Filtering.

Definition still_slashable (st : Demo.state) (s : Demo.alpha) : bool :=
  match s with
  | Demo.AlphaNil => false
  | Demo.AlphaMsg i =>
      match Demo.registry st !! Z.to_nat i with
      | Some active => active
      | None => false
      end
  end.

Definition pending_slashable (st : Demo.state) (noLimit : bool)
    (l : list Demo.alpha) : list Demo.alpha :=
  Demo.limited noLimit (List.filter (still_slashable st) l).

Definition env : Env := {|
  BeaconState := Demo.state;
  ReadOnlyValidator := bool;
  Fork := unit;
  Root := unit;
  V1Att := Demo.wire;
  V1Prop := Demo.wire;
  V1Exit := Demo.wire;
  AlphaAtt := Demo.alpha;
  AlphaProp := Demo.alpha;
  AlphaExit := Demo.alpha;
  Chain := Demo.chain;
  SlashingsPool := Demo.slashing_pool;
  ExitsPool := list Demo.alpha;
  Network := Demo.network;
  env_state := {|
    Slot := Demo.state_slot;
    StateFork := fun _ => tt;
    GenesisValidatorRoot := fun _ => tt;
    ValidatorAtIndexReadOnly := Demo.validator_at
  |};
  env_chain := {| HeadState := Demo.head_state |};
  env_slashings := {|
    InsertAttesterSlashing := Demo.insert_attester;
    InsertProposerSlashing := Demo.insert_proposer;
    PendingAttesterSlashings :=
      fun st noLimit p =>
        (pending_slashable st noLimit (Demo.pending_attester p), p);
    PendingProposerSlashings :=
      fun st noLimit p =>
        (pending_slashable st noLimit (Demo.pending_proposer p), p)
  |};
  env_exits := {|
    InsertVoluntaryExit := Demo.insert_exit;
    PendingExits := fun _ _ noLimit p => (Demo.limited noLimit p, p)
  |};
  env_p2p := {| Broadcast := Demo.broadcast |};
  env_blocks := {|
    VerifyAttesterSlashing := Demo.verify_slashing;
    VerifyProposerSlashing := Demo.verify_slashing;
    VerifyExitAndSignature := Demo.verify_exit
  |};
  env_migration := {|
    V1AttSlashingToV1Alpha1 := Demo.to_alpha;
    V1Alpha1AttSlashingToV1 := Demo.to_wire;
    V1ProposerSlashingToV1Alpha1 := Demo.to_alpha;
    V1Alpha1ProposerSlashingToV1 := Demo.to_wire;
    V1ExitToV1Alpha1 := Demo.to_alpha;
    V1Alpha1ExitToV1 := Demo.to_wire
  |};
  env_request := {| Exit_ValidatorIndex := Demo.wire_index |};
  env_nil_att := Demo.WireNil;
  env_nil_prop := Demo.WireNil;
  env_nil_exit := Demo.WireNil
|}.

(** The head of [Demo] (validator 2 has exited), empty pools, no reachable
    peer. *)
Definition node_offline : World (E := env) :=
  mkWorld (E := env) (Some Demo.head) (Demo.mkSlashingPool [] []) []
    (Demo.mkNetwork false []) {| DisableBroadcastSlashings := false |}.

End Filtering.

(** ** Properties of the handlers *)

(** Unfolds a handler down to the calls on the collaborators. *)
Ltac unfold_handlers :=
  unfold SubmitAttesterSlashing, SubmitProposerSlashing, SubmitVoluntaryExit,
    ListPoolAttesterSlashings, ListPoolProposerSlashings, ListPoolVoluntaryExits;
  unfold mbind, mret, Handler_bind, Handler_ret, bind, ret, throw,
    call_HeadState, call_VerifyAttesterSlashing, call_VerifyProposerSlashing,
    call_VerifyExitAndSignature, call_InsertAttesterSlashing,
    call_InsertProposerSlashing, call_InsertVoluntaryExit,
    call_PendingAttesterSlashings, call_PendingProposerSlashings,
    call_PendingExits, call_Broadcast, featureconfig_Get.

(** Settles the outcome [t] of a collaborator call: by a hypothesis that
    gives it, or else by cases. *)
Ltac settle t :=
  first [ match goal with H : t = _ |- _ => rewrite H end
        | destruct t eqn:? ].

(** One step of a handler run: the next call whose arguments are known. *)
Ltac step :=
  match goal with
  | |- context [HeadState ?c] => settle (HeadState c)
  | |- context [ValidatorAtIndexReadOnly ?s ?i] =>
      settle (ValidatorAtIndexReadOnly s i)
  | |- context [VerifyAttesterSlashing ?s ?a] => settle (VerifyAttesterSlashing s a)
  | |- context [VerifyProposerSlashing ?s ?a] => settle (VerifyProposerSlashing s a)
  | |- context [VerifyExitAndSignature ?v ?s ?f ?e ?r] =>
      settle (VerifyExitAndSignature v s f e r)
  | |- context [InsertAttesterSlashing ?s ?a ?p] =>
      settle (InsertAttesterSlashing s a p)
  | |- context [InsertProposerSlashing ?s ?a ?p] =>
      settle (InsertProposerSlashing s a p)
  | |- context [PendingAttesterSlashings ?s ?b ?p] =>
      settle (PendingAttesterSlashings s b p)
  | |- context [PendingProposerSlashings ?s ?b ?p] =>
      settle (PendingProposerSlashings s b p)
  | |- context [PendingExits ?s ?l ?b ?p] => settle (PendingExits s l b p)
  | |- context [DisableBroadcastSlashings ?f] =>
      settle (DisableBroadcastSlashings f)
  | |- context [Broadcast ?m ?n] => settle (Broadcast m n)
  | |- context [match ?x with _ => _ end] => is_var x; destruct x
  end; cbn.

(** Runs a handler to its end, along every path the hypotheses allow. *)
Ltac run := cbn; unfold_handlers; cbn; repeat step.

(** Membership of a call in an explicit trace. *)
Ltac in_trace :=
  repeat first [ apply list_elem_of_here | apply list_elem_of_further ].

(** Splits a goal into its conjuncts, taking their hypotheses in. *)
Ltac tidy :=
  repeat first [ progress intros | split | progress simplify_eq/= ].

(** A property of every call of an explicit trace. *)
Ltac each_call :=
  repeat first [ apply Forall_nil_2
               | apply Forall_cons_2; [cbn; eauto 6 |] ].

Section Properties.

Context {E : Env}.

(** *** The slice-filling loop *)

Lemma range_assign_app {A B : Type} (f : A -> B) (src : list A) :
  forall (done todo : list B),
    length todo = length src ->
    range_assign f (length done) src (done ++ todo) = done ++ (f <$> src).
Proof.
  induction src as [|s rest IH]; intros done todo Hlen.
  - destruct todo; [reflexivity | discriminate].
  - destruct todo as [|d todo]; [discriminate |].
    cbn [range_assign fmap list_fmap].
    replace (<[length done := f s]> (done ++ d :: todo))
      with ((done ++ [f s]) ++ todo).
    + replace (S (length done)) with (length (done ++ [f s]))
        by (rewrite length_app; cbn; lia).
      rewrite IH by (cbn in Hlen; lia).
      by rewrite <- app_assoc.
    + rewrite insert_app_r_alt by lia.
      rewrite Nat.sub_diag, <- app_assoc. reflexivity.
Qed.

(** The loop fills the slice with the translations, in order. *)
Lemma translate_all_map {A B : Type} `{!Pointer B} (f : A -> B) (src : list A) :
  translate_all f src = f <$> src.
Proof.
  unfold translate_all.
  apply (range_assign_app f src [] (replicate (length src) nil_ptr)).
  apply length_replicate.
Qed.


(** *** Traces *)


(** *** Runs of the handlers along their main paths *)

Lemma ListPoolAttesterSlashings_run (w : World) (st : BeaconState) (c : Chain) :
  HeadState (chainInfo w) = (inr st, c) ->
  ListPoolAttesterSlashings w =
    let '(src, p) := PendingAttesterSlashings st true (slashingsPool w) in
    mkOutcome (inr {| Data := V1Alpha1AttSlashingToV1 <$> src |})
      (set_slashingsPool p (set_chainInfo c w))
      [CallHeadState; CallPendingAttesterSlashings st true].
Proof. intros Hhead. run. by rewrite translate_all_map. Qed.

Lemma ListPoolProposerSlashings_run (w : World) (st : BeaconState) (c : Chain) :
  HeadState (chainInfo w) = (inr st, c) ->
  ListPoolProposerSlashings w =
    let '(src, p) := PendingProposerSlashings st true (slashingsPool w) in
    mkOutcome (inr {| Data := V1Alpha1ProposerSlashingToV1 <$> src |})
      (set_slashingsPool p (set_chainInfo c w))
      [CallHeadState; CallPendingProposerSlashings st true].
Proof. intros Hhead. run. by rewrite translate_all_map. Qed.

Lemma ListPoolVoluntaryExits_run (w : World) (st : BeaconState) (c : Chain) :
  HeadState (chainInfo w) = (inr st, c) ->
  ListPoolVoluntaryExits w =
    let '(src, p) := PendingExits st (Slot st) true (exitsPool w) in
    mkOutcome (inr {| Data := V1Alpha1ExitToV1 <$> src |})
      (set_exitsPool p (set_chainInfo c w))
      [CallHeadState; CallPendingExits st (Slot st) true].
Proof. intros Hhead. run. by rewrite translate_all_map. Qed.

(** A slashing that passed verification and insertion: what is left is the
    flag and the broadcast. *)
Lemma SubmitAttesterSlashing_admitted
    (w : World) (st : BeaconState) (c : Chain) (req : V1Att) (p : SlashingsPool) :
  let alphaSlashing := V1AttSlashingToV1Alpha1 req in
  HeadState (chainInfo w) = (inr st, c) ->
  VerifyAttesterSlashing st alphaSlashing = None ->
  InsertAttesterSlashing st alphaSlashing (slashingsPool w) = (None, p) ->
  SubmitAttesterSlashing req w =
    let admitted := set_slashingsPool p (set_chainInfo c w) in
    let calls := [CallHeadState; CallVerifyAttesterSlashing st alphaSlashing;
                  CallInsertAttesterSlashing st alphaSlashing] in
    if DisableBroadcastSlashings (featureconfig w)
    then mkOutcome (inr EmptyMsg) admitted calls
    else
      let '(err, n) := Broadcast (MsgAttesterSlashing req) (p2p w) in
      mkOutcome
        match err with
        | Some err => inl (Errorf Internal "Could not broadcast slashing object: " err)
        | None => inr EmptyMsg
        end
        (set_p2p n admitted)
        (calls ++ [CallBroadcast (MsgAttesterSlashing req)]).
Proof. cbn zeta. intros Hhead Hverify Hinsert. run; reflexivity. Qed.

Lemma SubmitProposerSlashing_admitted
    (w : World) (st : BeaconState) (c : Chain) (req : V1Prop) (p : SlashingsPool) :
  let alphaSlashing := V1ProposerSlashingToV1Alpha1 req in
  HeadState (chainInfo w) = (inr st, c) ->
  VerifyProposerSlashing st alphaSlashing = None ->
  InsertProposerSlashing st alphaSlashing (slashingsPool w) = (None, p) ->
  SubmitProposerSlashing req w =
    let admitted := set_slashingsPool p (set_chainInfo c w) in
    let calls := [CallHeadState; CallVerifyProposerSlashing st alphaSlashing;
                  CallInsertProposerSlashing st alphaSlashing] in
    if DisableBroadcastSlashings (featureconfig w)
    then mkOutcome (inr EmptyMsg) admitted calls
    else
      let '(err, n) := Broadcast (MsgProposerSlashing req) (p2p w) in
      mkOutcome
        match err with
        | Some err => inl (Errorf Internal "Could not broadcast slashing object: " err)
        | None => inr EmptyMsg
        end
        (set_p2p n admitted)
        (calls ++ [CallBroadcast (MsgProposerSlashing req)]).
Proof. cbn zeta. intros Hhead Hverify Hinsert. run; reflexivity. Qed.

(** An exit that passed the lookup and verification: it is inserted and
    broadcast. *)
Lemma SubmitVoluntaryExit_admitted
    (w : World) (st : BeaconState) (c : Chain) (req : V1Exit)
    (v : ReadOnlyValidator) :
  let alphaExit := V1ExitToV1Alpha1 req in
  HeadState (chainInfo w) = (inr st, c) ->
  ValidatorAtIndexReadOnly st (Exit_ValidatorIndex req) = inr v ->
  VerifyExitAndSignature v (Slot st) (StateFork st) alphaExit
    (GenesisValidatorRoot st) = None ->
  SubmitVoluntaryExit req w =
    let admitted :=
      set_exitsPool (InsertVoluntaryExit st alphaExit (exitsPool w))
        (set_chainInfo c w) in
    let '(err, n) := Broadcast (MsgVoluntaryExit req) (p2p w) in
    mkOutcome
      match err with
      | Some err =>
          inl (Errorf Internal "Could not broadcast voluntary exit object: " err)
      | None => inr EmptyMsg
      end
      (set_p2p n admitted)
      [CallHeadState;
       CallVerifyExitAndSignature v (Slot st) (StateFork st) alphaExit
         (GenesisValidatorRoot st);
       CallInsertVoluntaryExit st alphaExit;
       CallBroadcast (MsgVoluntaryExit req)].
Proof. cbn zeta. intros Hhead Hlookup Hverify. run; reflexivity. Qed.

(** *** Failures before the pool is reached *)

(** C1. A Submit whose verification call rejects the translated object
    against the fetched head state returns the error, makes no insertion
    call and no broadcast call, and leaves pools and network as they were;
    for attester slashings, proposer slashings and voluntary exits. *)
Theorem submit_rejected_stops_before_pool (w : World) (st : BeaconState) (c : Chain) :
  HeadState (chainInfo w) = (inr st, c) ->
  (forall req e,
     VerifyAttesterSlashing st (V1AttSlashingToV1Alpha1 req) = Some e ->
     let o := SubmitAttesterSlashing req w in
     result o = inl (Errorf Internal "Invalid attester slashing: " e) /\
     count is_insert (trace o) = 0 /\ count is_broadcast (trace o) = 0 /\
     pools_untouched w (world o) /\ network_untouched w (world o)) /\
  (forall req e,
     VerifyProposerSlashing st (V1ProposerSlashingToV1Alpha1 req) = Some e ->
     let o := SubmitProposerSlashing req w in
     result o = inl (Errorf Internal "Invalid proposer slashing: " e) /\
     count is_insert (trace o) = 0 /\ count is_broadcast (trace o) = 0 /\
     pools_untouched w (world o) /\ network_untouched w (world o)) /\
  (forall req v e,
     ValidatorAtIndexReadOnly st (Exit_ValidatorIndex req) = inr v ->
     VerifyExitAndSignature v (Slot st) (StateFork st) (V1ExitToV1Alpha1 req)
       (GenesisValidatorRoot st) = Some e ->
     let o := SubmitVoluntaryExit req w in
     result o = inl (Errorf Internal "Invalid voluntary exit: " e) /\
     count is_insert (trace o) = 0 /\ count is_broadcast (trace o) = 0 /\
     pools_untouched w (world o) /\ network_untouched w (world o)).
Proof.
  intros Hhead. unfold pools_untouched, network_untouched.
  split; [| split].
  - intros req e Hverify. run. repeat split.
  - intros req e Hverify. run. repeat split.
  - intros req v e Hlookup Hverify. run. repeat split.
Qed.

(** C2. When the head-state fetch fails, each of the six handlers returns
    the error after that one call: nothing is asked of the verifier, the
    pools or the broadcaster, and pools and network stay as they were. *)
Theorem no_head_state_no_effect (w : World) (e : error) (c : Chain) :
  HeadState (chainInfo w) = (inl e, c) ->
  let failure {A} : Outcome A :=
    mkOutcome (inl (Errorf Internal "Could not get head state: " e))
      (set_chainInfo c w) [CallHeadState] in
  ListPoolAttesterSlashings w = failure /\
  (forall req, SubmitAttesterSlashing req w = failure) /\
  ListPoolProposerSlashings w = failure /\
  (forall req, SubmitProposerSlashing req w = failure) /\
  ListPoolVoluntaryExits w = failure /\
  (forall req, SubmitVoluntaryExit req w = failure) /\
  pools_untouched w (set_chainInfo c w) /\
  network_untouched w (set_chainInfo c w) /\
  count is_verify [CallHeadState] = 0 /\
  count is_insert [CallHeadState] = 0 /\
  count is_pending [CallHeadState] = 0 /\
  count is_broadcast [CallHeadState] = 0.
Proof.
  intros Hhead. cbn zeta.
  repeat split; intros; run; reflexivity.
Qed.


(** C7. [SubmitVoluntaryExit] for a validator index that the head state
    cannot resolve returns that lookup error right after the fetch: no
    verification call, no insertion, no broadcast. *)
Theorem unknown_validator_index_stops_exit
    (w : World) (st : BeaconState) (c : Chain) (req : V1Exit) (e : error) :
  HeadState (chainInfo w) = (inr st, c) ->
  ValidatorAtIndexReadOnly st (Exit_ValidatorIndex req) = inl e ->
  let o := SubmitVoluntaryExit req w in
  result o = inl (Errorf Internal "Could not get exiting validator: " e) /\
  trace o = [CallHeadState] /\
  count is_verify (trace o) = 0 /\
  count is_insert (trace o) = 0 /\
  count is_broadcast (trace o) = 0 /\
  pools_untouched w (world o) /\ network_untouched w (world o).
Proof.
  intros Hhead Hlookup. unfold pools_untouched, network_untouched.
  run. repeat split.
Qed.

(** *** Insertion and broadcast *)

(** C8. When the insertion call of a slashing Submit returns an error, the
    handler returns it, ends there (the insertion is its last call: no
    broadcast, nothing undone) and the pool stays as that call left it.
    [InsertVoluntaryExit] returns nothing that could be an error: a run of
    [SubmitVoluntaryExit] broadcasts as often as it inserts. *)
Theorem insert_failure_is_returned (w : World) (st : BeaconState) (c : Chain) :
  HeadState (chainInfo w) = (inr st, c) ->
  (forall req e p,
     let alphaSlashing := V1AttSlashingToV1Alpha1 req in
     VerifyAttesterSlashing st alphaSlashing = None ->
     InsertAttesterSlashing st alphaSlashing (slashingsPool w) = (Some e, p) ->
     let o := SubmitAttesterSlashing req w in
     result o = inl (Errorf Internal
                       "Could not insert attester slashing into pool: " e) /\
     trace o = [CallHeadState; CallVerifyAttesterSlashing st alphaSlashing;
                CallInsertAttesterSlashing st alphaSlashing] /\
     count is_broadcast (trace o) = 0 /\
     network_untouched w (world o) /\
     slashingsPool (world o) = p /\ exitsPool (world o) = exitsPool w) /\
  (forall req e p,
     let alphaSlashing := V1ProposerSlashingToV1Alpha1 req in
     VerifyProposerSlashing st alphaSlashing = None ->
     InsertProposerSlashing st alphaSlashing (slashingsPool w) = (Some e, p) ->
     let o := SubmitProposerSlashing req w in
     result o = inl (Errorf Internal
                       "Could not insert proposer slashing into pool: " e) /\
     trace o = [CallHeadState; CallVerifyProposerSlashing st alphaSlashing;
                CallInsertProposerSlashing st alphaSlashing] /\
     count is_broadcast (trace o) = 0 /\
     network_untouched w (world o) /\
     slashingsPool (world o) = p /\ exitsPool (world o) = exitsPool w) /\
  (forall req,
     let o := SubmitVoluntaryExit req w in
     count is_broadcast (trace o) = count is_insert (trace o)).
Proof.
  intros Hhead. unfold network_untouched.
  split; [| split].
  - intros req e p. cbn zeta. intros Hverify Hinsert.
    run. repeat split.
  - intros req e p. cbn zeta. intros Hverify Hinsert.
    run. repeat split.
  - intros req. run; reflexivity.
Qed.

(** C3. With [DisableBroadcastSlashings] set, a slashing Submit that passes
    verification and insertion succeeds without a broadcast call.
    [SubmitVoluntaryExit] that passes verification calls the broadcaster
    once, with the request, whatever the flags are. *)
Theorem broadcast_gating (w : World) (st : BeaconState) (c : Chain) :
  HeadState (chainInfo w) = (inr st, c) ->
  (forall req p,
     let alphaSlashing := V1AttSlashingToV1Alpha1 req in
     DisableBroadcastSlashings (featureconfig w) = true ->
     VerifyAttesterSlashing st alphaSlashing = None ->
     InsertAttesterSlashing st alphaSlashing (slashingsPool w) = (None, p) ->
     let o := SubmitAttesterSlashing req w in
     result o = inr EmptyMsg /\
     count is_broadcast (trace o) = 0 /\
     network_untouched w (world o) /\
     slashingsPool (world o) = p) /\
  (forall req p,
     let alphaSlashing := V1ProposerSlashingToV1Alpha1 req in
     DisableBroadcastSlashings (featureconfig w) = true ->
     VerifyProposerSlashing st alphaSlashing = None ->
     InsertProposerSlashing st alphaSlashing (slashingsPool w) = (None, p) ->
     let o := SubmitProposerSlashing req w in
     result o = inr EmptyMsg /\
     count is_broadcast (trace o) = 0 /\
     network_untouched w (world o) /\
     slashingsPool (world o) = p) /\
  (forall req v flags,
     ValidatorAtIndexReadOnly st (Exit_ValidatorIndex req) = inr v ->
     VerifyExitAndSignature v (Slot st) (StateFork st) (V1ExitToV1Alpha1 req)
       (GenesisValidatorRoot st) = None ->
     let o := SubmitVoluntaryExit req (set_featureconfig flags w) in
     count is_broadcast (trace o) = 1 /\
     CallBroadcast (MsgVoluntaryExit req) ∈ trace o /\
     p2p (world o) = (Broadcast (MsgVoluntaryExit req) (p2p w)).2).
Proof.
  intros Hhead. unfold network_untouched.
  split; [| split].
  - intros req p. cbn zeta. intros Hflag Hverify Hinsert.
    run. repeat split.
  - intros req p. cbn zeta. intros Hflag Hverify Hinsert.
    run. repeat split.
  - intros req v flags Hlookup Hverify.
    run; (split; [reflexivity | split; [| reflexivity]]);
      repeat constructor.
Qed.



(** *** The head-state snapshot *)

(** C5. Every run of a Submit calls [HeadState] exactly once: the fetcher
    is left in the state that one call gave it, and the snapshot [st] it
    returned is the one that verification and insertion work on.  Every
    verification and insertion call of the run carries [st] (for
    [VerifyExitAndSignature]: the validator, slot, fork and genesis root
    read from [st]); the verdict of the verifier on [st] decides the
    result; and once that verdict is positive the pool is in the state
    that the insertion made with [st] gives it. *)
Theorem one_snapshot_per_submit (w : World) (st : BeaconState) (c : Chain) :
  HeadState (chainInfo w) = (inr st, c) ->
  (forall req,
     let o := SubmitAttesterSlashing req w in
     let alphaSlashing := V1AttSlashingToV1Alpha1 req in
     let inserted := InsertAttesterSlashing st alphaSlashing (slashingsPool w) in
     count is_head_state (trace o) = 1 /\
     chainInfo (world o) = c /\
     Forall (from_snapshot st) (trace o) /\
     (forall e,
        VerifyAttesterSlashing st alphaSlashing = Some e ->
        result o = inl (Errorf Internal "Invalid attester slashing: " e) /\
        slashingsPool (world o) = slashingsPool w) /\
     (VerifyAttesterSlashing st alphaSlashing = None ->
      CallVerifyAttesterSlashing st alphaSlashing ∈ trace o /\
      CallInsertAttesterSlashing st alphaSlashing ∈ trace o /\
      slashingsPool (world o) = inserted.2 /\
      forall e,
        inserted.1 = Some e ->
        result o = inl (Errorf Internal
                          "Could not insert attester slashing into pool: " e))) /\
  (forall req,
     let o := SubmitProposerSlashing req w in
     let alphaSlashing := V1ProposerSlashingToV1Alpha1 req in
     let inserted := InsertProposerSlashing st alphaSlashing (slashingsPool w) in
     count is_head_state (trace o) = 1 /\
     chainInfo (world o) = c /\
     Forall (from_snapshot st) (trace o) /\
     (forall e,
        VerifyProposerSlashing st alphaSlashing = Some e ->
        result o = inl (Errorf Internal "Invalid proposer slashing: " e) /\
        slashingsPool (world o) = slashingsPool w) /\
     (VerifyProposerSlashing st alphaSlashing = None ->
      CallVerifyProposerSlashing st alphaSlashing ∈ trace o /\
      CallInsertProposerSlashing st alphaSlashing ∈ trace o /\
      slashingsPool (world o) = inserted.2 /\
      forall e,
        inserted.1 = Some e ->
        result o = inl (Errorf Internal
                          "Could not insert proposer slashing into pool: " e))) /\
  (forall req,
     let o := SubmitVoluntaryExit req w in
     let alphaExit := V1ExitToV1Alpha1 req in
     count is_head_state (trace o) = 1 /\
     chainInfo (world o) = c /\
     Forall (from_snapshot st) (trace o) /\
     (forall v,
        ValidatorAtIndexReadOnly st (Exit_ValidatorIndex req) = inr v ->
        (forall e,
           VerifyExitAndSignature v (Slot st) (StateFork st) alphaExit
             (GenesisValidatorRoot st) = Some e ->
           result o = inl (Errorf Internal "Invalid voluntary exit: " e) /\
           exitsPool (world o) = exitsPool w) /\
        (VerifyExitAndSignature v (Slot st) (StateFork st) alphaExit
           (GenesisValidatorRoot st) = None ->
         CallVerifyExitAndSignature v (Slot st) (StateFork st) alphaExit
           (GenesisValidatorRoot st) ∈ trace o /\
         CallInsertVoluntaryExit st alphaExit ∈ trace o /\
         exitsPool (world o)
           = InsertVoluntaryExit st alphaExit (exitsPool w)))).
Proof.
  intros Hhead.
  repeat apply conj; intros req; cbn zeta;
    run; tidy; each_call; in_trace.
Qed.

(** *** Listing *)

(** C6. With a head state, a List handler returns [{Data: ...}] where [Data]
    has one element per object of the pool's pending query made with
    [noLimit = true], element [i] being the v1 translation of the query's
    [i]-th object; its only calls are the fetch and that query. *)
Theorem list_translates_unlimited_pending (w : World) (st : BeaconState) (c : Chain) :
  HeadState (chainInfo w) = (inr st, c) ->
  (let src := (PendingAttesterSlashings st true (slashingsPool w)).1 in
   let o := ListPoolAttesterSlashings w in
   exists resp,
     result o = inr resp /\
     length (Data resp) = length src /\
     (forall i, Data resp !! i = V1Alpha1AttSlashingToV1 <$> src !! i) /\
     trace o = [CallHeadState; CallPendingAttesterSlashings st true] /\
     count is_insert (trace o) = 0 /\ count is_verify (trace o) = 0) /\
  (let src := (PendingProposerSlashings st true (slashingsPool w)).1 in
   let o := ListPoolProposerSlashings w in
   exists resp,
     result o = inr resp /\
     length (Data resp) = length src /\
     (forall i, Data resp !! i = V1Alpha1ProposerSlashingToV1 <$> src !! i) /\
     trace o = [CallHeadState; CallPendingProposerSlashings st true] /\
     count is_insert (trace o) = 0 /\ count is_verify (trace o) = 0) /\
  (let src := (PendingExits st (Slot st) true (exitsPool w)).1 in
   let o := ListPoolVoluntaryExits w in
   exists resp,
     result o = inr resp /\
     length (Data resp) = length src /\
     (forall i, Data resp !! i = V1Alpha1ExitToV1 <$> src !! i) /\
     trace o = [CallHeadState; CallPendingExits st (Slot st) true] /\
     count is_insert (trace o) = 0 /\ count is_verify (trace o) = 0).
Proof.
  intros Hhead. cbn zeta. repeat apply conj.
  - rewrite (ListPoolAttesterSlashings_run w st c Hhead).
    destruct (PendingAttesterSlashings st true (slashingsPool w)) as [src p].
    eexists. cbn. repeat split; [apply length_fmap | apply list_lookup_fmap].
  - rewrite (ListPoolProposerSlashings_run w st c Hhead).
    destruct (PendingProposerSlashings st true (slashingsPool w)) as [src p].
    eexists. cbn. repeat split; [apply length_fmap | apply list_lookup_fmap].
  - rewrite (ListPoolVoluntaryExits_run w st c Hhead).
    destruct (PendingExits st (Slot st) true (exitsPool w)) as [src p].
    eexists. cbn. repeat split; [apply length_fmap | apply list_lookup_fmap].
Qed.


(** *** Voluntary exits and the pool *)

(** C9. An error of [SubmitVoluntaryExit] comes from the head-state fetch,
    the validator lookup, the verification or the broadcast, and from
    nothing else; once verification has passed, the exit is handed to
    [InsertVoluntaryExit] and the exit pool is whatever that call makes of
    it, whether or not the broadcast then succeeds. *)
Theorem exit_insertion_cannot_fail (w : World) (req : V1Exit) :
  let o := SubmitVoluntaryExit req w in
  let alphaExit := V1ExitToV1Alpha1 req in
  (forall status,
     result o = inl status ->
     (exists e c,
        HeadState (chainInfo w) = (inl e, c) /\
        status = Errorf Internal "Could not get head state: " e) \/
     (exists st c e,
        HeadState (chainInfo w) = (inr st, c) /\
        ValidatorAtIndexReadOnly st (Exit_ValidatorIndex req) = inl e /\
        status = Errorf Internal "Could not get exiting validator: " e) \/
     (exists st c v e,
        HeadState (chainInfo w) = (inr st, c) /\
        ValidatorAtIndexReadOnly st (Exit_ValidatorIndex req) = inr v /\
        VerifyExitAndSignature v (Slot st) (StateFork st) alphaExit
          (GenesisValidatorRoot st) = Some e /\
        status = Errorf Internal "Invalid voluntary exit: " e) \/
     (exists st c v e n,
        HeadState (chainInfo w) = (inr st, c) /\
        ValidatorAtIndexReadOnly st (Exit_ValidatorIndex req) = inr v /\
        VerifyExitAndSignature v (Slot st) (StateFork st) alphaExit
          (GenesisValidatorRoot st) = None /\
        Broadcast (MsgVoluntaryExit req) (p2p w) = (Some e, n) /\
        status = Errorf Internal "Could not broadcast voluntary exit object: " e)) /\
  (forall st c v,
     HeadState (chainInfo w) = (inr st, c) ->
     ValidatorAtIndexReadOnly st (Exit_ValidatorIndex req) = inr v ->
     VerifyExitAndSignature v (Slot st) (StateFork st) alphaExit
       (GenesisValidatorRoot st) = None ->
     exitsPool (world o) = InsertVoluntaryExit st alphaExit (exitsPool w) /\
     count is_insert (trace o) = 1 /\
     CallInsertVoluntaryExit st alphaExit ∈ trace o /\
     count is_broadcast (trace o) = 1).
Proof.
  cbn zeta. split.
  - intros status.
    destruct (HeadState (chainInfo w)) as [[e | st] c] eqn:Hhead.
    + run. intros [= <-]. left. eauto.
    + destruct (ValidatorAtIndexReadOnly st (Exit_ValidatorIndex req))
        as [e | v] eqn:Hlookup.
      * run. intros [= <-]. right; left. eauto 10.
      * destruct (VerifyExitAndSignature v (Slot st) (StateFork st)
                    (V1ExitToV1Alpha1 req) (GenesisValidatorRoot st))
          as [e |] eqn:Hverify.
        -- run. intros [= <-]. do 2 right; left. eauto 10.
        -- rewrite (SubmitVoluntaryExit_admitted w st c req v Hhead Hlookup Hverify).
           cbn zeta.
           destruct (Broadcast (MsgVoluntaryExit req) (p2p w)) as [[e |] n] eqn:Hcast;
             cbn; intros [= <-].
           do 3 right. eauto 12.
  - intros st c v Hhead Hlookup Hverify.
    rewrite (SubmitVoluntaryExit_admitted w st c req v Hhead Hlookup Hverify).
    cbn zeta. destruct (Broadcast _ _) as [err n]. cbn.
    repeat split. in_trace.
Qed.

(** *** What the pool and the network are given *)

(** C10. In every run of a Submit, what is verified and inserted is the
    v1alpha1 translation of the request, and what is broadcast is the v1
    request itself.  On the path where all calls succeed, the pool ends in
    the state the insertion of the translation gave it and the network in
    the state the broadcast of the request gave it. *)
Theorem pool_gets_translation_network_gets_request (w : World) :
  (forall req, Forall (carries_attester_slashing req)
                 (trace (SubmitAttesterSlashing req w))) /\
  (forall req, Forall (carries_proposer_slashing req)
                 (trace (SubmitProposerSlashing req w))) /\
  (forall req, Forall (carries_voluntary_exit req)
                 (trace (SubmitVoluntaryExit req w))) /\
  (forall st c req p n,
     let alphaSlashing := V1AttSlashingToV1Alpha1 req in
     HeadState (chainInfo w) = (inr st, c) ->
     VerifyAttesterSlashing st alphaSlashing = None ->
     InsertAttesterSlashing st alphaSlashing (slashingsPool w) = (None, p) ->
     DisableBroadcastSlashings (featureconfig w) = false ->
     Broadcast (MsgAttesterSlashing req) (p2p w) = (None, n) ->
     SubmitAttesterSlashing req w =
       mkOutcome (inr EmptyMsg)
         (set_p2p n (set_slashingsPool p (set_chainInfo c w)))
         [CallHeadState; CallVerifyAttesterSlashing st alphaSlashing;
          CallInsertAttesterSlashing st alphaSlashing;
          CallBroadcast (MsgAttesterSlashing req)]) /\
  (forall st c req p n,
     let alphaSlashing := V1ProposerSlashingToV1Alpha1 req in
     HeadState (chainInfo w) = (inr st, c) ->
     VerifyProposerSlashing st alphaSlashing = None ->
     InsertProposerSlashing st alphaSlashing (slashingsPool w) = (None, p) ->
     DisableBroadcastSlashings (featureconfig w) = false ->
     Broadcast (MsgProposerSlashing req) (p2p w) = (None, n) ->
     SubmitProposerSlashing req w =
       mkOutcome (inr EmptyMsg)
         (set_p2p n (set_slashingsPool p (set_chainInfo c w)))
         [CallHeadState; CallVerifyProposerSlashing st alphaSlashing;
          CallInsertProposerSlashing st alphaSlashing;
          CallBroadcast (MsgProposerSlashing req)]) /\
  (forall st c req v n,
     let alphaExit := V1ExitToV1Alpha1 req in
     HeadState (chainInfo w) = (inr st, c) ->
     ValidatorAtIndexReadOnly st (Exit_ValidatorIndex req) = inr v ->
     VerifyExitAndSignature v (Slot st) (StateFork st) alphaExit
       (GenesisValidatorRoot st) = None ->
     Broadcast (MsgVoluntaryExit req) (p2p w) = (None, n) ->
     SubmitVoluntaryExit req w =
       mkOutcome (inr EmptyMsg)
         (set_p2p n
            (set_exitsPool (InsertVoluntaryExit st alphaExit (exitsPool w))
               (set_chainInfo c w)))
         [CallHeadState;
          CallVerifyExitAndSignature v (Slot st) (StateFork st) alphaExit
            (GenesisValidatorRoot st);
          CallInsertVoluntaryExit st alphaExit;
          CallBroadcast (MsgVoluntaryExit req)]).
Proof.
  repeat apply conj.
  - intros req. run; each_call.
  - intros req. run; each_call.
  - intros req. run; each_call.
  - intros st c req p n. cbn zeta. intros Hhead Hverify Hinsert Hflag Hcast.
    rewrite (SubmitAttesterSlashing_admitted w st c req p Hhead Hverify Hinsert).
    cbn zeta. by rewrite Hflag, Hcast.
  - intros st c req p n. cbn zeta. intros Hhead Hverify Hinsert Hflag Hcast.
    rewrite (SubmitProposerSlashing_admitted w st c req p Hhead Hverify Hinsert).
    cbn zeta. by rewrite Hflag, Hcast.
  - intros st c req v n. cbn zeta. intros Hhead Hlookup Hverify Hcast.
    rewrite (SubmitVoluntaryExit_admitted w st c req v Hhead Hlookup Hverify).
    cbn zeta. by rewrite Hcast.
Qed.

End Properties.

(** ** Further properties of the handlers *)

Section Further.

Context {E : Env}.

(** *** Errors *)

(** Whatever step fails, the status that a handler returns has the code
    [codes.Internal]. *)
Theorem every_error_is_internal (w : World) :
  (forall s, result (ListPoolAttesterSlashings w) = inl s -> code s = Internal) /\
  (forall s, result (ListPoolProposerSlashings w) = inl s -> code s = Internal) /\
  (forall s, result (ListPoolVoluntaryExits w) = inl s -> code s = Internal) /\
  (forall req s,
     result (SubmitAttesterSlashing req w) = inl s -> code s = Internal) /\
  (forall req s,
     result (SubmitProposerSlashing req w) = inl s -> code s = Internal) /\
  (forall req s,
     result (SubmitVoluntaryExit req w) = inl s -> code s = Internal).
Proof.
  repeat apply conj; intros; revert H; run;
    intros H; try discriminate H; injection H as <-; reflexivity.
Qed.

(** An error of a slashing Submit comes from the head-state fetch, the
    verification, the insertion or, when broadcasting is not disabled, the
    broadcast, and carries the text of the collaborator's error. *)
Theorem slashing_errors_come_from_four_steps (w : World) :
  (forall req status,
     let alphaSlashing := V1AttSlashingToV1Alpha1 req in
     result (SubmitAttesterSlashing req w) = inl status ->
     (exists e c,
        HeadState (chainInfo w) = (inl e, c) /\
        status = Errorf Internal "Could not get head state: " e) \/
     (exists st c e,
        HeadState (chainInfo w) = (inr st, c) /\
        VerifyAttesterSlashing st alphaSlashing = Some e /\
        status = Errorf Internal "Invalid attester slashing: " e) \/
     (exists st c e p,
        HeadState (chainInfo w) = (inr st, c) /\
        VerifyAttesterSlashing st alphaSlashing = None /\
        InsertAttesterSlashing st alphaSlashing (slashingsPool w) = (Some e, p) /\
        status = Errorf Internal
                   "Could not insert attester slashing into pool: " e) \/
     (exists st c p e n,
        HeadState (chainInfo w) = (inr st, c) /\
        VerifyAttesterSlashing st alphaSlashing = None /\
        InsertAttesterSlashing st alphaSlashing (slashingsPool w) = (None, p) /\
        DisableBroadcastSlashings (featureconfig w) = false /\
        Broadcast (MsgAttesterSlashing req) (p2p w) = (Some e, n) /\
        status = Errorf Internal "Could not broadcast slashing object: " e)) /\
  (forall req status,
     let alphaSlashing := V1ProposerSlashingToV1Alpha1 req in
     result (SubmitProposerSlashing req w) = inl status ->
     (exists e c,
        HeadState (chainInfo w) = (inl e, c) /\
        status = Errorf Internal "Could not get head state: " e) \/
     (exists st c e,
        HeadState (chainInfo w) = (inr st, c) /\
        VerifyProposerSlashing st alphaSlashing = Some e /\
        status = Errorf Internal "Invalid proposer slashing: " e) \/
     (exists st c e p,
        HeadState (chainInfo w) = (inr st, c) /\
        VerifyProposerSlashing st alphaSlashing = None /\
        InsertProposerSlashing st alphaSlashing (slashingsPool w) = (Some e, p) /\
        status = Errorf Internal
                   "Could not insert proposer slashing into pool: " e) \/
     (exists st c p e n,
        HeadState (chainInfo w) = (inr st, c) /\
        VerifyProposerSlashing st alphaSlashing = None /\
        InsertProposerSlashing st alphaSlashing (slashingsPool w) = (None, p) /\
        DisableBroadcastSlashings (featureconfig w) = false /\
        Broadcast (MsgProposerSlashing req) (p2p w) = (Some e, n) /\
        status = Errorf Internal "Could not broadcast slashing object: " e)).
Proof.
  split; intros req status; cbn zeta.
  - destruct (HeadState (chainInfo w)) as [[e | st] c] eqn:Hhead.
    { run; intros [= <-]; left; eauto. }
    destruct (VerifyAttesterSlashing st (V1AttSlashingToV1Alpha1 req))
      as [e |] eqn:Hverify.
    { run; intros [= <-]; right; left; eauto 10. }
    destruct (InsertAttesterSlashing st (V1AttSlashingToV1Alpha1 req)
                (slashingsPool w)) as [[e |] p] eqn:Hinsert.
    { run; intros [= <-]; do 2 right; left; eauto 10. }
    rewrite (SubmitAttesterSlashing_admitted w st c req p Hhead Hverify Hinsert).
    cbn zeta.
    destruct (DisableBroadcastSlashings (featureconfig w)) eqn:Hflag;
      [discriminate |].
    destruct (Broadcast (MsgAttesterSlashing req) (p2p w)) as [[e |] n] eqn:Hcast;
      cbn; intros [= <-].
    do 3 right. eauto 12.
  - destruct (HeadState (chainInfo w)) as [[e | st] c] eqn:Hhead.
    { run; intros [= <-]; left; eauto. }
    destruct (VerifyProposerSlashing st (V1ProposerSlashingToV1Alpha1 req))
      as [e |] eqn:Hverify.
    { run; intros [= <-]; right; left; eauto 10. }
    destruct (InsertProposerSlashing st (V1ProposerSlashingToV1Alpha1 req)
                (slashingsPool w)) as [[e |] p] eqn:Hinsert.
    { run; intros [= <-]; do 2 right; left; eauto 10. }
    rewrite (SubmitProposerSlashing_admitted w st c req p Hhead Hverify Hinsert).
    cbn zeta.
    destruct (DisableBroadcastSlashings (featureconfig w)) eqn:Hflag;
      [discriminate |].
    destruct (Broadcast (MsgProposerSlashing req) (p2p w)) as [[e |] n] eqn:Hcast;
      cbn; intros [= <-].
    do 3 right. eauto 12.
Qed.


(** *** Success *)

(** A Submit returns success only after the object passed verification and
    the pool took it: the pool is then in the state the insertion call left,
    and the request was broadcast without error unless, for a slashing,
    broadcasting is disabled. *)
Theorem success_means_admitted (w : World) :
  (forall req ack,
     let alphaSlashing := V1AttSlashingToV1Alpha1 req in
     let o := SubmitAttesterSlashing req w in
     result o = inr ack ->
     exists st c p,
       HeadState (chainInfo w) = (inr st, c) /\
       VerifyAttesterSlashing st alphaSlashing = None /\
       InsertAttesterSlashing st alphaSlashing (slashingsPool w) = (None, p) /\
       slashingsPool (world o) = p /\
       (DisableBroadcastSlashings (featureconfig w) = true /\
        p2p (world o) = p2p w \/
        DisableBroadcastSlashings (featureconfig w) = false /\
        Broadcast (MsgAttesterSlashing req) (p2p w) = (None, p2p (world o)))) /\
  (forall req ack,
     let alphaSlashing := V1ProposerSlashingToV1Alpha1 req in
     let o := SubmitProposerSlashing req w in
     result o = inr ack ->
     exists st c p,
       HeadState (chainInfo w) = (inr st, c) /\
       VerifyProposerSlashing st alphaSlashing = None /\
       InsertProposerSlashing st alphaSlashing (slashingsPool w) = (None, p) /\
       slashingsPool (world o) = p /\
       (DisableBroadcastSlashings (featureconfig w) = true /\
        p2p (world o) = p2p w \/
        DisableBroadcastSlashings (featureconfig w) = false /\
        Broadcast (MsgProposerSlashing req) (p2p w) = (None, p2p (world o)))) /\
  (forall req ack,
     let alphaExit := V1ExitToV1Alpha1 req in
     let o := SubmitVoluntaryExit req w in
     result o = inr ack ->
     exists st c v,
       HeadState (chainInfo w) = (inr st, c) /\
       ValidatorAtIndexReadOnly st (Exit_ValidatorIndex req) = inr v /\
       VerifyExitAndSignature v (Slot st) (StateFork st) alphaExit
         (GenesisValidatorRoot st) = None /\
       exitsPool (world o) = InsertVoluntaryExit st alphaExit (exitsPool w) /\
       Broadcast (MsgVoluntaryExit req) (p2p w) = (None, p2p (world o))).
Proof.
  repeat apply conj; intros req ack; cbn zeta.
  - destruct (HeadState (chainInfo w)) as [[e | st] c] eqn:Hhead.
    { run; discriminate. }
    destruct (VerifyAttesterSlashing st (V1AttSlashingToV1Alpha1 req))
      as [e |] eqn:Hverify.
    { run; discriminate. }
    destruct (InsertAttesterSlashing st (V1AttSlashingToV1Alpha1 req)
                (slashingsPool w)) as [[e |] p] eqn:Hinsert.
    { run; discriminate. }
    rewrite (SubmitAttesterSlashing_admitted w st c req p Hhead Hverify Hinsert).
    cbn zeta.
    destruct (DisableBroadcastSlashings (featureconfig w)); cbn.
    { intros _. exists st, c, p. repeat split; first [done | by left]. }
    destruct (Broadcast (MsgAttesterSlashing req) (p2p w)) as [[e |] n];
      cbn; [discriminate |].
    intros _. exists st, c, p. repeat split; first [done | by right].
  - destruct (HeadState (chainInfo w)) as [[e | st] c] eqn:Hhead.
    { run; discriminate. }
    destruct (VerifyProposerSlashing st (V1ProposerSlashingToV1Alpha1 req))
      as [e |] eqn:Hverify.
    { run; discriminate. }
    destruct (InsertProposerSlashing st (V1ProposerSlashingToV1Alpha1 req)
                (slashingsPool w)) as [[e |] p] eqn:Hinsert.
    { run; discriminate. }
    rewrite (SubmitProposerSlashing_admitted w st c req p Hhead Hverify Hinsert).
    cbn zeta.
    destruct (DisableBroadcastSlashings (featureconfig w)); cbn.
    { intros _. exists st, c, p. repeat split; first [done | by left]. }
    destruct (Broadcast (MsgProposerSlashing req) (p2p w)) as [[e |] n];
      cbn; [discriminate |].
    intros _. exists st, c, p. repeat split; first [done | by right].
  - destruct (HeadState (chainInfo w)) as [[e | st] c] eqn:Hhead.
    { run; discriminate. }
    destruct (ValidatorAtIndexReadOnly st (Exit_ValidatorIndex req))
      as [e | v] eqn:Hlookup.
    { run; discriminate. }
    destruct (VerifyExitAndSignature v (Slot st) (StateFork st)
                (V1ExitToV1Alpha1 req) (GenesisValidatorRoot st))
      as [e |] eqn:Hverify.
    { run; discriminate. }
    rewrite (SubmitVoluntaryExit_admitted w st c req v Hhead Hlookup Hverify).
    cbn zeta.
    destruct (Broadcast (MsgVoluntaryExit req) (p2p w)) as [[e |] n];
      cbn; [discriminate |].
    intros _. exists st, c, v. repeat split; done.
Qed.

(** *** What a handler leaves alone *)

(** No handler changes the feature configuration.  A List leaves the
    network and the pool of the other kind as they were; a slashing Submit
    leaves the exit pool, and an exit Submit the slashing pool, as it was. *)
Theorem handlers_leave_the_rest_alone (w : World) :
  (let o := ListPoolAttesterSlashings w in
   featureconfig (world o) = featureconfig w /\
   p2p (world o) = p2p w /\ exitsPool (world o) = exitsPool w) /\
  (let o := ListPoolProposerSlashings w in
   featureconfig (world o) = featureconfig w /\
   p2p (world o) = p2p w /\ exitsPool (world o) = exitsPool w) /\
  (let o := ListPoolVoluntaryExits w in
   featureconfig (world o) = featureconfig w /\
   p2p (world o) = p2p w /\ slashingsPool (world o) = slashingsPool w) /\
  (forall req,
     let o := SubmitAttesterSlashing req w in
     featureconfig (world o) = featureconfig w /\
     exitsPool (world o) = exitsPool w) /\
  (forall req,
     let o := SubmitProposerSlashing req w in
     featureconfig (world o) = featureconfig w /\
     exitsPool (world o) = exitsPool w) /\
  (forall req,
     let o := SubmitVoluntaryExit req w in
     featureconfig (world o) = featureconfig w /\
     slashingsPool (world o) = slashingsPool w).
Proof.
  cbn zeta. repeat apply conj; intros; run; repeat split.
Qed.

(** *** How many calls a handler makes *)

(** Every handler starts with the head-state fetch and fetches once.  A
    List makes at most one pending query and no verification, insertion or
    broadcast call.  A Submit makes no pending query, at most one
    verification call, no more insertion calls than verification calls and
    no more broadcast calls than insertion calls. *)
Theorem call_counts (w : World) :
  let list_calls (t : list Call) :=
    head t = Some CallHeadState /\ count is_head_state t = 1 /\
    count is_pending t <= 1 /\ count is_verify t = 0 /\
    count is_insert t = 0 /\ count is_broadcast t = 0 in
  let submit_calls (t : list Call) :=
    head t = Some CallHeadState /\ count is_head_state t = 1 /\
    count is_pending t = 0 /\ count is_verify t <= 1 /\
    count is_insert t <= count is_verify t /\
    count is_broadcast t <= count is_insert t in
  list_calls (trace (ListPoolAttesterSlashings w)) /\
  list_calls (trace (ListPoolProposerSlashings w)) /\
  list_calls (trace (ListPoolVoluntaryExits w)) /\
  (forall req, submit_calls (trace (SubmitAttesterSlashing req w))) /\
  (forall req, submit_calls (trace (SubmitProposerSlashing req w))) /\
  (forall req, submit_calls (trace (SubmitVoluntaryExit req w))).
Proof.
  cbn zeta. repeat apply conj; intros; run; repeat split; lia.
Qed.


(** *** What a handler does not depend on *)

(** The slashing handlers do not look at the exit pool, nor the exit
    handlers at the slashing pool; the List handlers do not look at the
    network; the List handlers and [SubmitVoluntaryExit] do not look at the
    feature configuration.  Changing such a part of the node changes
    neither the result nor the calls, and the part itself is handed on as
    it is. *)
Theorem handlers_ignore_what_they_do_not_use
    (w : World) (sp : SlashingsPool) (ep : ExitsPool) (n : Network) (flags : Flags) :
  (ListPoolAttesterSlashings (set_exitsPool ep w)
     = with_world (set_exitsPool ep) (ListPoolAttesterSlashings w) /\
   ListPoolAttesterSlashings (set_p2p n w)
     = with_world (set_p2p n) (ListPoolAttesterSlashings w) /\
   ListPoolAttesterSlashings (set_featureconfig flags w)
     = with_world (set_featureconfig flags) (ListPoolAttesterSlashings w)) /\
  (ListPoolProposerSlashings (set_exitsPool ep w)
     = with_world (set_exitsPool ep) (ListPoolProposerSlashings w) /\
   ListPoolProposerSlashings (set_p2p n w)
     = with_world (set_p2p n) (ListPoolProposerSlashings w) /\
   ListPoolProposerSlashings (set_featureconfig flags w)
     = with_world (set_featureconfig flags) (ListPoolProposerSlashings w)) /\
  (ListPoolVoluntaryExits (set_slashingsPool sp w)
     = with_world (set_slashingsPool sp) (ListPoolVoluntaryExits w) /\
   ListPoolVoluntaryExits (set_p2p n w)
     = with_world (set_p2p n) (ListPoolVoluntaryExits w) /\
   ListPoolVoluntaryExits (set_featureconfig flags w)
     = with_world (set_featureconfig flags) (ListPoolVoluntaryExits w)) /\
  (forall req,
     SubmitAttesterSlashing req (set_exitsPool ep w)
       = with_world (set_exitsPool ep) (SubmitAttesterSlashing req w)) /\
  (forall req,
     SubmitProposerSlashing req (set_exitsPool ep w)
       = with_world (set_exitsPool ep) (SubmitProposerSlashing req w)) /\
  (forall req,
     SubmitVoluntaryExit req (set_slashingsPool sp w)
       = with_world (set_slashingsPool sp) (SubmitVoluntaryExit req w) /\
     SubmitVoluntaryExit req (set_featureconfig flags w)
       = with_world (set_featureconfig flags) (SubmitVoluntaryExit req w)).
Proof.
  unfold with_world.
  repeat apply conj; intros; run; repeat split.
Qed.

(** [DisableBroadcastSlashings] decides about the broadcast and about
    nothing else: under any two feature configurations a slashing Submit
    leaves the chain-info fetcher and the pools in the same states and
    makes the same calls, broadcasts apart. *)
Theorem flag_gates_only_the_broadcast (w : World) (flags : Flags) :
  (forall req,
     let o := SubmitAttesterSlashing req w in
     let o' := SubmitAttesterSlashing req (set_featureconfig flags w) in
     chainInfo (world o') = chainInfo (world o) /\
     slashingsPool (world o') = slashingsPool (world o) /\
     exitsPool (world o') = exitsPool (world o) /\
     drop_broadcasts (trace o') = drop_broadcasts (trace o)) /\
  (forall req,
     let o := SubmitProposerSlashing req w in
     let o' := SubmitProposerSlashing req (set_featureconfig flags w) in
     chainInfo (world o') = chainInfo (world o) /\
     slashingsPool (world o') = slashingsPool (world o) /\
     exitsPool (world o') = exitsPool (world o) /\
     drop_broadcasts (trace o') = drop_broadcasts (trace o)).
Proof.
  cbn zeta. split; intros req; run; repeat split.
Qed.

(** *** Listing after a Submit *)

(** Once the pool has taken the object, the next List of that kind returns
    the translation of what the pool, as the insertion left it, reports as
    pending under the head state fetched then; neither the feature flag nor
    the outcome of the broadcast has a say. *)
Theorem list_after_admission (w : World) (st : BeaconState) (c : Chain) :
  HeadState (chainInfo w) = (inr st, c) ->
  (forall req p st' c',
     let alphaSlashing := V1AttSlashingToV1Alpha1 req in
     let o := SubmitAttesterSlashing req w in
     VerifyAttesterSlashing st alphaSlashing = None ->
     InsertAttesterSlashing st alphaSlashing (slashingsPool w) = (None, p) ->
     HeadState (chainInfo (world o)) = (inr st', c') ->
     result (ListPoolAttesterSlashings (world o))
       = inr {| Data := V1Alpha1AttSlashingToV1
                          <$> (PendingAttesterSlashings st' true p).1 |}) /\
  (forall req p st' c',
     let alphaSlashing := V1ProposerSlashingToV1Alpha1 req in
     let o := SubmitProposerSlashing req w in
     VerifyProposerSlashing st alphaSlashing = None ->
     InsertProposerSlashing st alphaSlashing (slashingsPool w) = (None, p) ->
     HeadState (chainInfo (world o)) = (inr st', c') ->
     result (ListPoolProposerSlashings (world o))
       = inr {| Data := V1Alpha1ProposerSlashingToV1
                          <$> (PendingProposerSlashings st' true p).1 |}) /\
  (forall req v st' c',
     let alphaExit := V1ExitToV1Alpha1 req in
     let o := SubmitVoluntaryExit req w in
     ValidatorAtIndexReadOnly st (Exit_ValidatorIndex req) = inr v ->
     VerifyExitAndSignature v (Slot st) (StateFork st) alphaExit
       (GenesisValidatorRoot st) = None ->
     HeadState (chainInfo (world o)) = (inr st', c') ->
     result (ListPoolVoluntaryExits (world o))
       = inr {| Data := V1Alpha1ExitToV1
                          <$> (PendingExits st' (Slot st') true
                                 (InsertVoluntaryExit st alphaExit
                                    (exitsPool w))).1 |}).
Proof.
  intros Hhead. repeat apply conj.
  - intros req p st' c'. cbn zeta. intros Hverify Hinsert.
    rewrite (SubmitAttesterSlashing_admitted w st c req p Hhead Hverify Hinsert).
    cbn zeta.
    destruct (DisableBroadcastSlashings (featureconfig w));
      [| destruct (Broadcast _ _) as [err n]]; cbn; intros Hhead';
      rewrite (ListPoolAttesterSlashings_run _ st' c') by exact Hhead'; cbn;
      by destruct (PendingAttesterSlashings st' true p).
  - intros req p st' c'. cbn zeta. intros Hverify Hinsert.
    rewrite (SubmitProposerSlashing_admitted w st c req p Hhead Hverify Hinsert).
    cbn zeta.
    destruct (DisableBroadcastSlashings (featureconfig w));
      [| destruct (Broadcast _ _) as [err n]]; cbn; intros Hhead';
      rewrite (ListPoolProposerSlashings_run _ st' c') by exact Hhead'; cbn;
      by destruct (PendingProposerSlashings st' true p).
  - intros req v st' c'. cbn zeta. intros Hlookup Hverify.
    rewrite (SubmitVoluntaryExit_admitted w st c req v Hhead Hlookup Hverify).
    cbn zeta. destruct (Broadcast _ _) as [err n]; cbn; intros Hhead'.
    rewrite (ListPoolVoluntaryExits_run _ st' c') by exact Hhead'; cbn.
    by destruct (PendingExits st' (Slot st') true _).
Qed.


(** *** The text of a status *)

Lemma append_same_prefix (p e1 e2 : string) :
  p +:+ e1 = p +:+ e2 -> e1 = e2.
Proof.
  induction p as [|a p IH]; cbn; [done |].
  intros [= H]. by apply IH.
Qed.

Lemma status_text {A : Type} (c1 c2 : Code) (p1 p2 : string) (e1 e2 : error) :
  @inl Status A (Errorf c1 p1 e1) = inl (Errorf c2 p2 e2) ->
  p1 +:+ e1 = p2 +:+ e2.
Proof. intros H. by injection H. Qed.

(** Reads the equation [H] between a returned result and a status built
    from a format string: the wrapped error, if the format strings agree;
    nothing can have happened, if they differ. *)
Ltac read_status H :=
  first [ discriminate H
        | apply status_text in H;
          first [ apply append_same_prefix in H; subst
                | exfalso; cbn in H; congruence ] ].

(** The status that a Submit returns tells which step failed and with which
    error: a status made of one of the handler's format strings and the text
    [e] is returned only when the step that the format string belongs to
    was reached and its collaborator returned the error [e]. *)
Theorem status_tells_the_failed_step (w : World) (e : error) :
  (forall req,
     let o := SubmitAttesterSlashing req w in
     let alphaSlashing := V1AttSlashingToV1Alpha1 req in
     (result o = inl (Errorf Internal "Could not get head state: " e) ->
      exists c, HeadState (chainInfo w) = (inl e, c)) /\
     (result o = inl (Errorf Internal "Invalid attester slashing: " e) ->
      exists st c,
        HeadState (chainInfo w) = (inr st, c) /\
        VerifyAttesterSlashing st alphaSlashing = Some e) /\
     (result o = inl (Errorf Internal
                        "Could not insert attester slashing into pool: " e) ->
      exists st c p,
        HeadState (chainInfo w) = (inr st, c) /\
        VerifyAttesterSlashing st alphaSlashing = None /\
        InsertAttesterSlashing st alphaSlashing (slashingsPool w) = (Some e, p)) /\
     (result o = inl (Errorf Internal "Could not broadcast slashing object: " e) ->
      exists st c p n,
        HeadState (chainInfo w) = (inr st, c) /\
        VerifyAttesterSlashing st alphaSlashing = None /\
        InsertAttesterSlashing st alphaSlashing (slashingsPool w) = (None, p) /\
        DisableBroadcastSlashings (featureconfig w) = false /\
        Broadcast (MsgAttesterSlashing req) (p2p w) = (Some e, n))) /\
  (forall req,
     let o := SubmitProposerSlashing req w in
     let alphaSlashing := V1ProposerSlashingToV1Alpha1 req in
     (result o = inl (Errorf Internal "Could not get head state: " e) ->
      exists c, HeadState (chainInfo w) = (inl e, c)) /\
     (result o = inl (Errorf Internal "Invalid proposer slashing: " e) ->
      exists st c,
        HeadState (chainInfo w) = (inr st, c) /\
        VerifyProposerSlashing st alphaSlashing = Some e) /\
     (result o = inl (Errorf Internal
                        "Could not insert proposer slashing into pool: " e) ->
      exists st c p,
        HeadState (chainInfo w) = (inr st, c) /\
        VerifyProposerSlashing st alphaSlashing = None /\
        InsertProposerSlashing st alphaSlashing (slashingsPool w) = (Some e, p)) /\
     (result o = inl (Errorf Internal "Could not broadcast slashing object: " e) ->
      exists st c p n,
        HeadState (chainInfo w) = (inr st, c) /\
        VerifyProposerSlashing st alphaSlashing = None /\
        InsertProposerSlashing st alphaSlashing (slashingsPool w) = (None, p) /\
        DisableBroadcastSlashings (featureconfig w) = false /\
        Broadcast (MsgProposerSlashing req) (p2p w) = (Some e, n))) /\
  (forall req,
     let o := SubmitVoluntaryExit req w in
     let alphaExit := V1ExitToV1Alpha1 req in
     (result o = inl (Errorf Internal "Could not get head state: " e) ->
      exists c, HeadState (chainInfo w) = (inl e, c)) /\
     (result o = inl (Errorf Internal "Could not get exiting validator: " e) ->
      exists st c,
        HeadState (chainInfo w) = (inr st, c) /\
        ValidatorAtIndexReadOnly st (Exit_ValidatorIndex req) = inl e) /\
     (result o = inl (Errorf Internal "Invalid voluntary exit: " e) ->
      exists st c v,
        HeadState (chainInfo w) = (inr st, c) /\
        ValidatorAtIndexReadOnly st (Exit_ValidatorIndex req) = inr v /\
        VerifyExitAndSignature v (Slot st) (StateFork st) alphaExit
          (GenesisValidatorRoot st) = Some e) /\
     (result o = inl (Errorf Internal
                        "Could not broadcast voluntary exit object: " e) ->
      exists st c v n,
        HeadState (chainInfo w) = (inr st, c) /\
        ValidatorAtIndexReadOnly st (Exit_ValidatorIndex req) = inr v /\
        VerifyExitAndSignature v (Slot st) (StateFork st) alphaExit
          (GenesisValidatorRoot st) = None /\
        Broadcast (MsgVoluntaryExit req) (p2p w) = (Some e, n))).
Proof.
  repeat apply conj; intros req; cbn zeta.
  - destruct (HeadState (chainInfo w)) as [[e0 | st] c] eqn:Hhead.
    { run; repeat split; intros H; read_status H; eauto. }
    destruct (VerifyAttesterSlashing st (V1AttSlashingToV1Alpha1 req))
      as [e0 |] eqn:Hverify.
    { run; repeat split; intros H; read_status H; eauto. }
    destruct (InsertAttesterSlashing st (V1AttSlashingToV1Alpha1 req)
                (slashingsPool w)) as [[e0 |] p] eqn:Hinsert.
    { run; repeat split; intros H; read_status H; eauto 10. }
    rewrite (SubmitAttesterSlashing_admitted w st c req p Hhead Hverify Hinsert).
    cbn zeta.
    destruct (DisableBroadcastSlashings (featureconfig w)) eqn:Hflag;
      [repeat split; discriminate |].
    destruct (Broadcast (MsgAttesterSlashing req) (p2p w)) as [[e0 |] n] eqn:Hcast;
      cbn; repeat split; intros H; read_status H; eauto 10.
  - destruct (HeadState (chainInfo w)) as [[e0 | st] c] eqn:Hhead.
    { run; repeat split; intros H; read_status H; eauto. }
    destruct (VerifyProposerSlashing st (V1ProposerSlashingToV1Alpha1 req))
      as [e0 |] eqn:Hverify.
    { run; repeat split; intros H; read_status H; eauto. }
    destruct (InsertProposerSlashing st (V1ProposerSlashingToV1Alpha1 req)
                (slashingsPool w)) as [[e0 |] p] eqn:Hinsert.
    { run; repeat split; intros H; read_status H; eauto 10. }
    rewrite (SubmitProposerSlashing_admitted w st c req p Hhead Hverify Hinsert).
    cbn zeta.
    destruct (DisableBroadcastSlashings (featureconfig w)) eqn:Hflag;
      [repeat split; discriminate |].
    destruct (Broadcast (MsgProposerSlashing req) (p2p w)) as [[e0 |] n] eqn:Hcast;
      cbn; repeat split; intros H; read_status H; eauto 10.
  - destruct (HeadState (chainInfo w)) as [[e0 | st] c] eqn:Hhead.
    { run; repeat split; intros H; read_status H; eauto. }
    destruct (ValidatorAtIndexReadOnly st (Exit_ValidatorIndex req))
      as [e0 | v] eqn:Hlookup.
    { run; repeat split; intros H; read_status H; eauto. }
    destruct (VerifyExitAndSignature v (Slot st) (StateFork st)
                (V1ExitToV1Alpha1 req) (GenesisValidatorRoot st))
      as [e0 |] eqn:Hverify.
    { run; repeat split; intros H; read_status H; eauto 10. }
    rewrite (SubmitVoluntaryExit_admitted w st c req v Hhead Hlookup Hverify).
    cbn zeta.
    destruct (Broadcast (MsgVoluntaryExit req) (p2p w)) as [[e0 |] n] eqn:Hcast;
      cbn; repeat split; intros H; read_status H; eauto 10.
Qed.

(** *** The response slice *)

(** The slice that a List handler fills has no trace of the [nil] that
    [make] put there: it is the same for any placeholder, each of its
    entries is the translation of a source object, and filling from a
    source in two parts gives the two slices one after the other. *)
Theorem response_slice_has_no_placeholder {A B : Type}
    (nil1 nil2 : B) (f : A -> B) (src1 src2 : list A) :
  @translate_all A B nil1 f src1
    = @translate_all A B nil2 f src1 /\
  (forall x, x ∈ @translate_all A B nil1 f src1 ->
             exists s, s ∈ src1 /\ x = f s) /\
  @translate_all A B nil1 f (src1 ++ src2)
    = @translate_all A B nil1 f src1
        ++ @translate_all A B nil1 f src2.
Proof.
  rewrite !translate_all_map. split; [reflexivity | split].
  - intros x (s & -> & Hs)%list_elem_of_fmap. eauto.
  - apply fmap_app.
Qed.


(** *** The endpoints that are not implemented *)

(** Whatever the request and the node, the two attestation endpoints fail
    in the same way and leave the node alone. *)
Lemma attestation_endpoints_are_stubs
    {Req Resp Att : Type} (req : Req) (att : Att) (w : World) :
  ListPoolAttestations (Resp := Resp) req w = (inl "unimplemented", w, []) /\
  SubmitAttestation att w = (inl "unimplemented", w, []).
Proof. by split. Qed.

End Further.

(** ** Runs on the small instance *)

Import Demo.

(** Rejected on [node]: a slashing with a negative offender, a nil slashing,
    and the exit of validator 2, which has exited already. *)
Lemma submit_rejected_stops_before_pool_witness :
  head_state (chainInfo node) = (inr head, Some head) /\
  verify_slashing head (to_alpha (WireMsg (-1))) = Some "slashing conditions not met" /\
  result (SubmitAttesterSlashing (WireMsg (-1)) node)
    = inl (Errorf Internal "Invalid attester slashing: " "slashing conditions not met") /\
  count is_insert (trace (SubmitAttesterSlashing (WireMsg (-1)) node)) = 0 /\
  verify_slashing head (to_alpha WireNil) = Some "nil slashing" /\
  result (SubmitProposerSlashing WireNil node)
    = inl (Errorf Internal "Invalid proposer slashing: " "nil slashing") /\
  validator_at head (wire_index (WireMsg 2)) = inr false /\
  verify_exit false (state_slot head) tt (to_alpha (WireMsg 2)) tt
    = Some "validator already exited" /\
  result (SubmitVoluntaryExit (WireMsg 2) node)
    = inl (Errorf Internal "Invalid voluntary exit: " "validator already exited") /\
  count is_broadcast (trace (SubmitVoluntaryExit (WireMsg 2) node)) = 0.
Proof.
  destruct (submit_rejected_stops_before_pool node head (Some head) eq_refl)
    as (Hatt & Hprop & Hexit).
  destruct (Hatt (WireMsg (-1)) _ eq_refl) as (Ha1 & Ha2 & _).
  destruct (Hprop WireNil _ eq_refl) as (Hp1 & _).
  destruct (Hexit (WireMsg 2) false _ eq_refl eq_refl) as (He1 & _ & He2 & _).
  repeat split; assumption.
Defined.

(** On [node_without_head] every handler stops at the fetch. *)
Lemma no_head_state_no_effect_witness :
  head_state (chainInfo node_without_head) = (inl "head state is nil", None) /\
  result (ListPoolAttesterSlashings node_without_head)
    = inl (Errorf Internal "Could not get head state: " "head state is nil") /\
  trace (SubmitProposerSlashing (WireMsg 1) node_without_head) = [CallHeadState] /\
  world (SubmitVoluntaryExit (WireMsg 0) node_without_head) = node_without_head.
Proof.
  pose proof (no_head_state_no_effect node_without_head _ None eq_refl) as H.
  cbn zeta in H.
  destruct H as (Hlist & _ & _ & Hprop & _ & Hexit & _).
  rewrite Hlist, (Hprop (WireMsg 1)), (Hexit (WireMsg 0)).
  repeat split.
Defined.

(** Validator 7 is not in the registry of [head]. *)
Lemma unknown_validator_index_stops_exit_witness :
  head_state (chainInfo node) = (inr head, Some head) /\
  validator_at head (wire_index (WireMsg 7)) = inl "index out of range" /\
  result (SubmitVoluntaryExit (WireMsg 7) node)
    = inl (Errorf Internal "Could not get exiting validator: " "index out of range") /\
  count is_insert (trace (SubmitVoluntaryExit (WireMsg 7) node)) = 0 /\
  count is_broadcast (trace (SubmitVoluntaryExit (WireMsg 7) node)) = 0.
Proof.
  destruct (unknown_validator_index_stops_exit node head (Some head) (WireMsg 7)
              _ eq_refl eq_refl) as (Hres & _ & _ & Hins & Hcast & _).
  repeat split; assumption.
Defined.

(** [node_holding] already holds slashing 1 of both kinds, so its pool
    refuses them. *)
Lemma insert_failure_is_returned_witness :
  head_state (chainInfo node_holding) = (inr head, Some head) /\
  verify_slashing head (to_alpha (WireMsg 1)) = None /\
  insert_attester head (to_alpha (WireMsg 1)) (slashingsPool node_holding)
    = (Some "slashing already pending", slashingsPool node_holding) /\
  insert_proposer head (to_alpha (WireMsg 1)) (slashingsPool node_holding)
    = (Some "slashing already pending", slashingsPool node_holding) /\
  result (SubmitAttesterSlashing (WireMsg 1) node_holding)
    = inl (Errorf Internal "Could not insert attester slashing into pool: "
             "slashing already pending") /\
  count is_broadcast (trace (SubmitAttesterSlashing (WireMsg 1) node_holding)) = 0 /\
  result (SubmitProposerSlashing (WireMsg 1) node_holding)
    = inl (Errorf Internal "Could not insert proposer slashing into pool: "
             "slashing already pending") /\
  p2p (world (SubmitProposerSlashing (WireMsg 1) node_holding)) = p2p node_holding.
Proof.
  destruct (insert_failure_is_returned node_holding head (Some head) eq_refl)
    as (Hatt & Hprop & _).
  destruct (Hatt (WireMsg 1) _ _ eq_refl eq_refl) as (Ha & _ & Hacast & _).
  destruct (Hprop (WireMsg 1) _ _ eq_refl eq_refl) as (Hp & _ & _ & Hpnet & _).
  repeat split; assumption.
Defined.

(** On [node_quiet] slashings are admitted without a broadcast; the exit of
    validator 0 is broadcast all the same. *)
Lemma broadcast_gating_witness :
  head_state (chainInfo node_quiet) = (inr head, Some head) /\
  DisableBroadcastSlashings (featureconfig node_quiet) = true /\
  insert_attester head (to_alpha (WireMsg 1)) (slashingsPool node_quiet)
    = (None, mkSlashingPool [AlphaMsg 1] []) /\
  result (SubmitAttesterSlashing (WireMsg 1) node_quiet) = inr EmptyMsg /\
  count is_broadcast (trace (SubmitAttesterSlashing (WireMsg 1) node_quiet)) = 0 /\
  insert_proposer head (to_alpha (WireMsg 1)) (slashingsPool node_quiet)
    = (None, mkSlashingPool [] [AlphaMsg 1]) /\
  result (SubmitProposerSlashing (WireMsg 1) node_quiet) = inr EmptyMsg /\
  count is_broadcast (trace (SubmitProposerSlashing (WireMsg 1) node_quiet)) = 0 /\
  validator_at head (wire_index (WireMsg 0)) = inr true /\
  count is_broadcast (trace (SubmitVoluntaryExit (WireMsg 0) node_quiet)) = 1.
Proof.
  destruct (broadcast_gating node_quiet head (Some head) eq_refl)
    as (Hatt & Hprop & Hexit).
  destruct (Hatt (WireMsg 1) _ eq_refl eq_refl eq_refl) as (Ha & Hacast & _).
  destruct (Hprop (WireMsg 1) _ eq_refl eq_refl eq_refl) as (Hp & Hpcast & _).
  destruct (Hexit (WireMsg 0) true {| DisableBroadcastSlashings := true |}
              eq_refl eq_refl) as (Hecast & _).
  repeat split; assumption.
Defined.



(** On [node] the verification and insertion calls of each kind carry
    [head], the fetcher stays at [head], and the pools are what the
    insertions with [head] give; the verdicts on [head] decide the results. *)
Lemma one_snapshot_per_submit_witness :
  head_state (chainInfo node) = (inr head, Some head) /\
  count is_head_state (trace (SubmitAttesterSlashing (WireMsg 1) node)) = 1 /\
  chainInfo (world (SubmitAttesterSlashing (WireMsg 1) node)) = Some head /\
  verify_slashing head (to_alpha (WireMsg 1)) = None /\
  CallVerifyAttesterSlashing head (AlphaMsg 1)
    ∈ trace (SubmitAttesterSlashing (WireMsg 1) node) /\
  CallInsertAttesterSlashing head (AlphaMsg 1)
    ∈ trace (SubmitAttesterSlashing (WireMsg 1) node) /\
  slashingsPool (world (SubmitAttesterSlashing (WireMsg 1) node))
    = mkSlashingPool [AlphaMsg 1] [] /\
  verify_slashing head (to_alpha (WireMsg (-1))) = Some "slashing conditions not met" /\
  result (SubmitProposerSlashing (WireMsg (-1)) node)
    = inl (Errorf Internal "Invalid proposer slashing: "
             "slashing conditions not met") /\
  slashingsPool (world (SubmitProposerSlashing (WireMsg 1) node))
    = mkSlashingPool [] [AlphaMsg 1] /\
  validator_at head (wire_index (WireMsg 0)) = inr true /\
  CallVerifyExitAndSignature true 64 tt (AlphaMsg 0) tt
    ∈ trace (SubmitVoluntaryExit (WireMsg 0) node) /\
  CallInsertVoluntaryExit head (AlphaMsg 0)
    ∈ trace (SubmitVoluntaryExit (WireMsg 0) node) /\
  exitsPool (world (SubmitVoluntaryExit (WireMsg 0) node)) = [AlphaMsg 0] /\
  validator_at head (wire_index (WireMsg 2)) = inr false /\
  result (SubmitVoluntaryExit (WireMsg 2) node)
    = inl (Errorf Internal "Invalid voluntary exit: " "validator already exited").
Proof.
  destruct (one_snapshot_per_submit node head (Some head) eq_refl)
    as (Hatt & Hprop & Hexit).
  destruct (Hatt (WireMsg 1)) as (Hone & Hchain & _ & _ & Hpass).
  destruct (Hpass eq_refl) as (Hav & Hai & Hapool & _).
  destruct (Hprop (WireMsg (-1))) as (_ & _ & _ & Hpreject & _).
  destruct (Hpreject _ eq_refl) as (Hpres & _).
  destruct (Hprop (WireMsg 1)) as (_ & _ & _ & _ & Hppass).
  destruct (Hppass eq_refl) as (_ & _ & Hppool & _).
  destruct (Hexit (WireMsg 0)) as (_ & _ & _ & He0).
  destruct (He0 true eq_refl) as (_ & Hepass).
  destruct (Hepass eq_refl) as (Hev & Hei & Hepool).
  destruct (Hexit (WireMsg 2)) as (_ & _ & _ & He2).
  destruct (He2 false eq_refl) as (Hereject & _).
  destruct (Hereject _ eq_refl) as (Heres & _).
  repeat apply conj;
    first [ exact Hone | exact Hchain | exact Hav | exact Hai | exact Hapool
          | exact Hpres | exact Hppool | exact Hev | exact Hei | exact Hepool
          | exact Heres | reflexivity ].
Defined.

(** [node_holding] lists its one pending object of each kind, translated. *)
Lemma list_translates_unlimited_pending_witness :
  head_state (chainInfo node_holding) = (inr head, Some head) /\
  (exists resp,
     result (ListPoolAttesterSlashings node_holding) = inr resp /\
     length (Data resp) = 1 /\ Data resp !! 0 = Some (WireMsg 1)) /\
  (exists resp,
     result (ListPoolProposerSlashings node_holding) = inr resp /\
     length (Data resp) = 1 /\ Data resp !! 0 = Some (WireMsg 1)) /\
  (exists resp,
     result (ListPoolVoluntaryExits node_holding) = inr resp /\
     length (Data resp) = 1 /\ Data resp !! 0 = Some (WireMsg 1)).
Proof.
  destruct (list_translates_unlimited_pending node_holding head (Some head) eq_refl)
    as ((ra & Hra & Hla & Hia & _) & (rp & Hrp & Hlp & Hip & _)
        & (re & Hre & Hle & Hie & _)).
  split; [reflexivity |].
  split; [| split].
  - exists ra. split; [exact Hra | split; [exact Hla | exact (Hia 0)]].
  - exists rp. split; [exact Hrp | split; [exact Hlp | exact (Hip 0)]].
  - exists re. split; [exact Hre | split; [exact Hle | exact (Hie 0)]].
Defined.

(** The exit of validator 0 on [node_offline] fails at the broadcast, after
    it was inserted; on [node_holding] the pool drops the exit of validator
    1 it already holds, and the handler goes on. *)
Lemma exit_insertion_cannot_fail_witness :
  (exists status,
     result (SubmitVoluntaryExit (WireMsg 0) node_offline) = inl status /\
     code status = Internal) /\
  exitsPool (world (SubmitVoluntaryExit (WireMsg 0) node_offline)) = [AlphaMsg 0] /\
  exitsPool (world (SubmitVoluntaryExit (WireMsg 1) node_holding)) = [AlphaMsg 1] /\
  count is_insert (trace (SubmitVoluntaryExit (WireMsg 1) node_holding)) = 1 /\
  count is_broadcast (trace (SubmitVoluntaryExit (WireMsg 1) node_holding)) = 1.
Proof.
  destruct (exit_insertion_cannot_fail node_offline (WireMsg 0)) as (Hfail & Hin).
  destruct (Hin head (Some head) true eq_refl eq_refl eq_refl) as (Hpool & _).
  destruct (exit_insertion_cannot_fail node_holding (WireMsg 1)) as (_ & Hin').
  destruct (Hin' head (Some head) true eq_refl eq_refl eq_refl)
    as (Hpool' & Hcount' & _ & Hcast').
  split; [| repeat split; assumption].
  eexists. split; [reflexivity |].
  destruct (Hfail _ eq_refl)
    as [(e & c & _ & Hs) | [(st & c & e & _ & _ & Hs) |
        [(st & c & v & e & _ & _ & _ & Hs) | (st & c & v & e & n & _ & _ & _ & _ & Hs)]]];
    rewrite Hs; reflexivity.
Defined.

(** On [node] all calls succeed: the pool holds the translation, the network
    published the request. *)
Lemma pool_gets_translation_network_gets_request_witness :
  head_state (chainInfo node) = (inr head, Some head) /\
  trace (SubmitAttesterSlashing (WireMsg 1) node)
    = [CallHeadState; CallVerifyAttesterSlashing head (AlphaMsg 1);
       CallInsertAttesterSlashing head (AlphaMsg 1);
       CallBroadcast (MsgAttesterSlashing (WireMsg 1))] /\
  slashingsPool (world (SubmitProposerSlashing (WireMsg 1) node))
    = mkSlashingPool [] [AlphaMsg 1] /\
  published (p2p (world (SubmitVoluntaryExit (WireMsg 0) node)))
    = [MsgVoluntaryExit (WireMsg 0)].
Proof.
  destruct (pool_gets_translation_network_gets_request node)
    as (_ & _ & _ & Hatt & Hprop & Hexit).
  rewrite (Hatt head (Some head) (WireMsg 1) _ _
             eq_refl eq_refl eq_refl eq_refl eq_refl).
  rewrite (Hprop head (Some head) (WireMsg 1) _ _
             eq_refl eq_refl eq_refl eq_refl eq_refl).
  rewrite (Hexit head (Some head) (WireMsg 0) true _
             eq_refl eq_refl eq_refl eq_refl).
  repeat split.
Defined.

(** On [node_without_head] a List returns a status, and its code is
    [Internal]; so does the Submit of a slashing that [node_holding]
    already holds. *)
Lemma every_error_is_internal_witness :
  (exists s,
     result (ListPoolVoluntaryExits node_without_head) = inl s /\
     code s = Internal) /\
  (exists s,
     result (SubmitProposerSlashing (WireMsg 1) node_holding) = inl s /\
     code s = Internal).
Proof.
  destruct (every_error_is_internal node_without_head) as (_ & _ & Hlist & _).
  destruct (every_error_is_internal node_holding) as (_ & _ & _ & _ & Hprop & _).
  split; eexists; (split; [reflexivity |]).
  - exact (Hlist _ eq_refl).
  - exact (Hprop (WireMsg 1) _ eq_refl).
Defined.

(** The pool of [node_holding] refuses attester slashing 1: the status
    says so. *)
Lemma slashing_errors_come_from_four_steps_witness :
  exists status,
    result (SubmitAttesterSlashing (WireMsg 1) node_holding) = inl status /\
    message status
      = "Could not insert attester slashing into pool: slashing already pending".
Proof.
  destruct (slashing_errors_come_from_four_steps node_holding) as (Hatt & _).
  eexists. split; [reflexivity |].
  destruct (Hatt (WireMsg 1) _ eq_refl)
    as [(e & c & _ & Hs) | [(st & c & e & _ & _ & Hs) |
        [(st & c & e & p & _ & _ & _ & Hs) |
         (st & c & p & e & n & _ & _ & _ & _ & _ & Hs)]]];
    reflexivity.
Defined.

(** On [node] the Submit of attester slashing 1 succeeds; the pool then is
    what the insertion returned. *)
Lemma success_means_admitted_witness :
  result (SubmitAttesterSlashing (WireMsg 1) node) = inr EmptyMsg /\
  exists st p,
    insert_attester st (AlphaMsg 1) (mkSlashingPool [] []) = (None, p) /\
    slashingsPool (world (SubmitAttesterSlashing (WireMsg 1) node)) = p.
Proof.
  destruct (success_means_admitted node) as (Hatt & _).
  destruct (Hatt (WireMsg 1) EmptyMsg eq_refl)
    as (st & c & p & _ & _ & Hinsert & Hpool & _).
  split; [reflexivity |]. exists st, p. split; [exact Hinsert | exact Hpool].
Defined.

(** After the Submits on [node_offline], whose broadcasts fail, and on
    [node_quiet], which does not broadcast slashings, the Lists show the
    objects. *)
Lemma list_after_admission_witness :
  head_state (chainInfo node_offline) = (inr head, Some head) /\
  result (ListPoolAttesterSlashings
            (world (SubmitAttesterSlashing (WireMsg 1) node_offline)))
    = inr {| Data := [WireMsg 1] |} /\
  result (ListPoolProposerSlashings
            (world (SubmitProposerSlashing (WireMsg 2) node_quiet)))
    = inr {| Data := [WireMsg 2] |} /\
  result (ListPoolVoluntaryExits
            (world (SubmitVoluntaryExit (WireMsg 0) node_offline)))
    = inr {| Data := [WireMsg 0] |}.
Proof.
  destruct (list_after_admission node_offline head (Some head) eq_refl)
    as (Hatt & _ & Hexit).
  destruct (list_after_admission node_quiet head (Some head) eq_refl)
    as (_ & Hprop & _).
  split; [reflexivity |]. split; [| split].
  - exact (Hatt (WireMsg 1) _ head (Some head) eq_refl eq_refl eq_refl).
  - exact (Hprop (WireMsg 2) _ head (Some head) eq_refl eq_refl eq_refl).
  - exact (Hexit (WireMsg 0) true head (Some head) eq_refl eq_refl eq_refl).
Defined.

(** The status of the rejected exit of validator 2 on [node], read back. *)
Lemma status_tells_the_failed_step_witness :
  result (SubmitVoluntaryExit (WireMsg 2) node)
    = inl (Errorf Internal "Invalid voluntary exit: " "validator already exited") /\
  exists st c v,
    head_state (chainInfo node) = (inr st, c) /\
    validator_at st (wire_index (WireMsg 2)) = inr v /\
    verify_exit v (state_slot st) tt (to_alpha (WireMsg 2)) tt
      = Some "validator already exited".
Proof.
  destruct (status_tells_the_failed_step node "validator already exited")
    as (_ & _ & Hexit).
  destruct (Hexit (WireMsg 2)) as (_ & _ & Hverify & _).
  split; [reflexivity |]. exact (Hverify eq_refl).
Defined.

(** The one-element slice filled from [AlphaMsg 1]. *)
Lemma response_slice_has_no_placeholder_witness :
  WireMsg 1 ∈ @translate_all alpha wire WireNil to_wire [AlphaMsg 1] /\
  exists s, s ∈ [AlphaMsg 1] /\ WireMsg 1 = to_wire s.
Proof.
  assert (Hin : WireMsg 1 ∈ @translate_all alpha wire WireNil to_wire [AlphaMsg 1])
    by apply list_elem_of_here.
  split; [exact Hin |].
  exact (proj1 (proj2 (response_slice_has_no_placeholder
                         WireNil WireNil to_wire [AlphaMsg 1] []))
           (WireMsg 1) Hin).
Defined.
